(** * Harmonic tide prediction of [ush/stofs_2d_glo/tide3.py]

    A shallow embedding of the tide engine of [tide3.py]: the constituent
    readers ([read_ft03], [read_ft07], [LoadConstit], [LoadSecond]), the
    harmonic synthesizer ([tide_t], [tide_hours]), the extrema search
    ([tide_MaxMin]), the secondary-station predictor ([secTide_t],
    [secTide_hours]) and the multi-year driver ([TideC_stn]).

    Modelling conventions.
    - Heights, times and constants are real numbers ([R]); numpy float
      arithmetic is read as exact arithmetic.
    - A numpy array of shape [(NUMT,)] is a function [nat -> R] read at the
      indices [0 .. NUMT-1]; an in-place store [a[i] = v] is [upd a i v].
    - A Python exception is an [exn]; a computation ends in [Ok], [Exc] or
      [Running] (a [while] loop that was still iterating when its iteration
      bound [fuel] ran out).
    - Code that mutates its argument ([tc], [st]) runs in the state and
      exception monad [M S]: the state is returned also when an exception is
      raised, as Python leaves the mutated object behind.
    - A text file is the list of lines [readline] returns, each with its
      line terminator; [readline] at end of file returns the empty string. *)

From Stdlib Require Import ZArith Reals Lra Lia List String Ascii Bool.
Import ListNotations.
Open Scope R_scope.

(** ** Python exceptions and results *)

Inductive exn : Type :=
| ValueError (msg : string)
| IndexError (msg : string)
| IOError (msg : string)
| NotImplementedError (msg : string).

Inductive outcome (A : Type) : Type :=
| Ok (a : A)
| Exc (e : exn)
| Running.
Arguments Ok {A} a.
Arguments Exc {A} e.
Arguments Running {A}.

Definition obind {A B} (c : outcome A) (k : A -> outcome B) : outcome B :=
  match c with
  | Ok a => k a
  | Exc e => Exc e
  | Running => Running
  end.

Notation "x <-? c ;; k" := (obind c (fun x => k))
  (at level 61, c at next level, right associativity).

(** The state and exception monad of code that mutates its argument. *)
Definition M (S A : Type) : Type := S -> outcome A * S.

Definition ret {S A} (a : A) : M S A := fun s => (Ok a, s).
Definition raise {S A} (e : exn) : M S A := fun s => (Exc e, s).
Definition bind {S A B} (c : M S A) (k : A -> M S B) : M S B :=
  fun s => match c s with
           | (Ok a, s') => k a s'
           | (Exc e, s') => (Exc e, s')
           | (Running, s') => (Running, s')
           end.
Definition get {S} : M S S := fun s => (Ok s, s).
Definition put {S} (s : S) : M S unit := fun _ => (Ok tt, s).
Definition lift {S A} (c : outcome A) : M S A := fun s => (c, s).

Notation "x <- c ;; k" := (bind c (fun x => k))
  (at level 61, c at next level, right associativity).
Notation "c ;;; k" := (bind c (fun _ => k))
  (at level 61, right associativity).

(** ** Arrays of [NUMT] reals *)

Definition NUMT : nat := 37.
Definition MAX_RES : R := 5 / 100.

(** [a[i] = v] on a numpy array. *)
Definition upd (a : nat -> R) (i : nat) (v : R) : nat -> R :=
  fun j => if Nat.eqb j i then v else a j.

(** [np.empty((NUMT,))]: numpy leaves the contents unspecified; the model
    fills them with 0 (every successful load overwrites all [NUMT] cells). *)
Definition np_empty : nat -> R := fun _ => 0.

(** [np.sum] of a one-dimensional array. *)
Definition np_sum (l : list R) : R := fold_right Rplus 0 l.

(** ** Data model *)

(** [TideConstitType]. *)
Record TideConstitType : Type := mkTC {
  mllw : Z;
  nsta : Z;
  year : Z;
  xode : nat -> R;
  vpu : nat -> R;
  ang : nat -> R;
  amp : nat -> R;
  epoc : nat -> R
}.

Definition TideConstitType_default : TideConstitType :=
  mkTC 0 (-1) (-1) np_empty np_empty np_empty np_empty np_empty.

(** The guard of [tide_t], [tide_hours] and [tide_MaxMin]:
    [tc.nsta < 1 or tc.year == -1]. *)
Definition tc_invalid (tc : TideConstitType) : bool :=
  (nsta tc <? 1)%Z || (year tc =? -1)%Z.

Definition invalid_constit : exn :=
  ValueError "Invalid tide constituent info input!".

(** ** Harmonic synthesizer *)

(** [eqn = tc.xode * tc.amp * np.cos(PI/180 * (tc.ang * t + tc.vpu - tc.epoc))] *)
Definition eqn_t (tc : TideConstitType) (t : R) : list R :=
  map (fun i => xode tc i * amp tc i
                * cos (PI / 180 * (ang tc i * t + vpu tc i - epoc tc i)))
      (seq 0 NUMT).

(** [tide_t]. *)
Definition tide_t (tc : TideConstitType) (t z0 : R) (f_seasonal : bool)
  : outcome R :=
  if tc_invalid tc then Exc invalid_constit else
  let z := z0 in
  let eqn := eqn_t tc t in
  if f_seasonal then Ok (z + np_sum eqn)
  else
    (* Skip constituent 14, and 16. *)
    Ok (z + np_sum (firstn 14 eqn) + nth 15 eqn 0 + np_sum (skipn 17 eqn)).

(** Row [k] of [np.outer(ts, tc.ang)] turned into the terms of the sum. *)
Definition eqn_row (tc : TideConstitType) (t : R) : list R :=
  map (fun i => xode tc i * amp tc i
                * cos (PI / 180 * (t * ang tc i + vpu tc i - epoc tc i)))
      (seq 0 NUMT).

(** [tide_hours]: [z0 * np.ones((numHours,))] raises on a negative
    length. *)
Definition tide_hours (tc : TideConstitType) (initHour z0 : R)
    (f_seasonal : bool) (numHours : Z) (delt : R) : outcome (list R) :=
  if tc_invalid tc then Exc invalid_constit else
  if (numHours <? 0)%Z then
    Exc (ValueError "negative dimensions are not allowed") else
  let ts := map (fun k => initHour + INR k * delt) (seq 0 (Z.to_nat numHours)) in
  if f_seasonal then
    Ok (map (fun t => z0 * 1 + np_sum (eqn_row tc t)) ts)
  else
    (* Skip constituent 14, and 16. *)
    Ok (map (fun t => z0 * 1 + np_sum (firstn 14 (eqn_row tc t))
                      + nth 15 (eqn_row tc t) 0
                      + np_sum (skipn 17 (eqn_row tc t))) ts).

(** ** Python strings and text files *)

(** [str.isspace] on ASCII: space, \t \n \v \f \r and \x1c .. \x1f. *)
Definition is_py_space (c : ascii) : bool :=
  let n := nat_of_ascii c in
  (n =? 32)%nat || ((9 <=? n)%nat && (n <=? 13)%nat)
  || ((28 <=? n)%nat && (n <=? 31)%nat).

Fixpoint lstrip (l : list ascii) : list ascii :=
  match l with
  | c :: r => if is_py_space c then lstrip r else l
  | [] => []
  end.

Definition py_strip (l : list ascii) : list ascii := rev (lstrip (rev (lstrip l))).

Definition digit_val (c : ascii) : option Z :=
  let n := nat_of_ascii c in
  if ((48 <=? n)%nat && (n <=? 57)%nat) then Some (Z.of_nat n - 48)%Z else None.

(** Decimal digits, single underscores allowed between digits (PEP 515);
    [prev] says whether the previous character was a digit. *)
Fixpoint digits_val (acc : Z) (prev : bool) (l : list ascii) : option Z :=
  match l with
  | [] => if prev then Some acc else None
  | c :: r =>
      match digit_val c with
      | Some d => digits_val (acc * 10 + d)%Z true r
      | None => if prev && Ascii.eqb c "_" then digits_val acc false r else None
      end
  end.

(** [int(s)] for a [str] argument, base 10. *)
Definition py_int (s : string) : option Z :=
  match py_strip (list_ascii_of_string s) with
  | c :: r =>
      if Ascii.eqb c "-" then option_map Z.opp (digits_val 0 false r)
      else if Ascii.eqb c "+" then digits_val 0 false r
      else digits_val 0 false (c :: r)
  | [] => None
  end.

Definition int_o (s : string) : outcome Z :=
  match py_int s with
  | Some z => Ok z
  | None => Exc (ValueError "invalid literal for int() with base 10")
  end.

(** [s[:n]], [s[a:b]] and [s[n:]]. *)
Definition take (n : nat) (s : string) : string := substring 0 n s.
Definition slice (a b : nat) (s : string) : string := substring a (b - a) s.
Definition drop (n : nat) (s : string) : string := substring n (length s - n) s.

(** [int(line.split()[0])]. *)
Definition first_token_int (line : string) : outcome Z :=
  let fix token (l : list ascii) : list ascii :=
    match l with
    | c :: r => if is_py_space c then [] else c :: token r
    | [] => []
    end in
  match lstrip (list_ascii_of_string line) with
  | [] => Exc (IndexError "list index out of range")
  | l => int_o (string_of_list_ascii (token l))
  end.

(** [fp.readline()]. *)
Definition readline (fp : list string) : string * list string :=
  match fp with
  | l :: r => (l, r)
  | [] => (EmptyString, [])
  end.

Fixpoint skip_lines (n : nat) (fp : list string) : list string :=
  match n with
  | O => fp
  | S n' => skip_lines n' (snd (readline fp))
  end.

Definition unexpected_eof : exn := ValueError "Encountered unexpected EOF!".

(** ** Constituent store *)

Definition set_year (tc : TideConstitType) (y : Z) : TideConstitType :=
  mkTC (mllw tc) (nsta tc) y (xode tc) (vpu tc) (ang tc) (amp tc) (epoc tc).
Definition set_nsta (tc : TideConstitType) (n : Z) : TideConstitType :=
  mkTC (mllw tc) n (year tc) (xode tc) (vpu tc) (ang tc) (amp tc) (epoc tc).
Definition set_mllw (tc : TideConstitType) (m : Z) : TideConstitType :=
  mkTC m (nsta tc) (year tc) (xode tc) (vpu tc) (ang tc) (amp tc) (epoc tc).
Definition set_xode (tc : TideConstitType) (a : nat -> R) : TideConstitType :=
  mkTC (mllw tc) (nsta tc) (year tc) a (vpu tc) (ang tc) (amp tc) (epoc tc).
Definition set_vpu (tc : TideConstitType) (a : nat -> R) : TideConstitType :=
  mkTC (mllw tc) (nsta tc) (year tc) (xode tc) a (ang tc) (amp tc) (epoc tc).
Definition set_ang (tc : TideConstitType) (a : nat -> R) : TideConstitType :=
  mkTC (mllw tc) (nsta tc) (year tc) (xode tc) (vpu tc) a (amp tc) (epoc tc).
Definition set_amp (tc : TideConstitType) (a : nat -> R) : TideConstitType :=
  mkTC (mllw tc) (nsta tc) (year tc) (xode tc) (vpu tc) (ang tc) a (epoc tc).
Definition set_epoc (tc : TideConstitType) (a : nat -> R) : TideConstitType :=
  mkTC (mllw tc) (nsta tc) (year tc) (xode tc) (vpu tc) (ang tc) (amp tc) a.

(** The [for i in range(beg, end + 1)] loop of [read_format_ft03], [n]
    iterations from index [i]; it writes [tc.xode] and [tc.vpu] in place. *)
Fixpoint read_format_ft03_loop (i n : nat) (line : string)
  : M TideConstitType unit :=
  match n with
  | O => ret tt
  | S n' =>
      a <- lift (int_o (take 4 line)) ;;
      tc <- get ;;
      put (set_xode tc (upd (xode tc) (i - 1) (IZR a / 1000))) ;;;
      b <- lift (int_o (slice 4 8 line)) ;;
      tc <- get ;;
      put (set_vpu tc (upd (vpu tc) (i - 1) (IZR b / 10))) ;;;
      read_format_ft03_loop (S i) n' (drop 8 line)
  end.

(** [read_format_ft03(line, beg, end, tc.xode, tc.vpu)]. *)
Definition read_format_ft03 (line : string) (beg end_ : nat)
  : M TideConstitType Z :=
  iyr <- lift (int_o (take 4 line)) ;;
  read_format_ft03_loop beg (end_ + 1 - beg) (drop 8 line) ;;;
  ret iyr.

(** The loop over [(9, 16), (17, 24), (25, 32), (33, NUMT)] of
    [read_ft03]; the year read from each line is discarded. *)
Fixpoint read_ft03_rest (ranges : list (nat * nat)) (fp : list string)
  : M TideConstitType unit :=
  match ranges with
  | [] => ret tt
  | (beg, end_) :: rs =>
      let '(line, fp) := readline fp in
      if String.eqb line EmptyString then raise unexpected_eof else
      _ <- read_format_ft03 line beg end_ ;;
      read_ft03_rest rs fp
  end.

(** [read_ft03(ft03, iyear, tc.xode, tc.vpu)]. *)
Definition read_ft03 (ft03 : list string) (iyear : Z) : M TideConstitType bool :=
  let '(line, fp) := readline ft03 in
  iyr1 <- lift (first_token_int line) ;;
  if (iyear <? iyr1)%Z then raise (ValueError "Invalid year from ft03") else
  (* Skip some lines (5 lines per year, 1st line already read) *)
  let fp := skip_lines (Z.to_nat ((iyear - iyr1) * 5 - 1)) fp in
  let '(line, fp) := if (iyear =? iyr1)%Z then (line, fp) else readline fp in
  iyr1 <- read_format_ft03 line 1 8 ;;
  if negb (iyear =? iyr1)%Z then
    raise (ValueError "Encountered unexpected year entry!") else
  read_ft03_rest [(9, 16); (17, 24); (25, 32); (33, NUMT)]%nat fp ;;;
  ret true.

(** [read_ang_ft07(line, beg, end, tc.ang)], as a loop of [n] iterations. *)
Fixpoint read_ang_ft07 (i n : nat) (line : string) : M TideConstitType unit :=
  match n with
  | O => ret tt
  | S n' =>
      a <- lift (int_o (take 10 line)) ;;
      tc <- get ;;
      put (set_ang tc (upd (ang tc) (i - 1) (IZR a / 10000000))) ;;;
      read_ang_ft07 (S i) n' (drop 10 line)
  end.

Fixpoint read_amp_epoc_loop (i n : nat) (line : string)
  : M TideConstitType unit :=
  match n with
  | O => ret tt
  | S n' =>
      a <- lift (int_o (take 5 line)) ;;
      tc <- get ;;
      put (set_amp tc (upd (amp tc) (i - 1) (IZR a / 1000))) ;;;
      b <- lift (int_o (slice 5 9 line)) ;;
      tc <- get ;;
      put (set_epoc tc (upd (epoc tc) (i - 1) (IZR b / 10))) ;;;
      read_amp_epoc_loop (S i) n' (drop 9 line)
  end.

(** [read_amp_epoc_ft07(line, beg, end, tc.amp, tc.epoc)]. *)
Definition read_amp_epoc_ft07 (line : string) (beg end_ : nat)
  : M TideConstitType unit :=
  read_amp_epoc_loop beg (end_ + 1 - beg) (drop 8 line).

(** A [readline] that raises on end of file. *)
Definition readline_nonempty {S} (fp : list string) : M S (string * list string) :=
  let '(line, fp) := readline fp in
  if String.eqb line EmptyString then raise unexpected_eof else ret (line, fp).

(** The angle loop [for i in range(1, 7)] of [read_ft07]. *)
Fixpoint read_ft07_angles (i n : nat) (fp : list string)
  : M TideConstitType (list string) :=
  match n with
  | O => ret fp
  | S n' =>
      let j1 := (1 + (i - 1) * 7)%nat in
      let j2 := if (NUMT <? j1 + 6)%nat then NUMT else (j1 + 6)%nat in
      lf <- readline_nonempty fp ;;
      read_ang_ft07 j1 (j2 + 1 - j1) (fst lf) ;;;
      read_ft07_angles (S i) n' (snd lf)
  end.

Fixpoint read_ft07_skip {S} (n : nat) (fp : list string) : M S (list string) :=
  match n with
  | O => ret fp
  | S n' => lf <- readline_nonempty fp ;; read_ft07_skip n' (snd lf)
  end.

Fixpoint read_ft07_consts (ranges : list (nat * nat)) (fp : list string)
  : M TideConstitType unit :=
  match ranges with
  | [] => ret tt
  | (beg, end_) :: rs =>
      lf <- readline_nonempty fp ;;
      read_amp_epoc_ft07 (fst lf) beg end_ ;;;
      read_ft07_consts rs (snd lf)
  end.

(** [read_ft07(ft07, nsta, tc.ang, tc.amp, tc.epoc)]; returns [mllw]. *)
Definition read_ft07 (ft07 : list string) (nsta_ : Z) : M TideConstitType Z :=
  fp <- read_ft07_angles 1 6 ft07 ;;
  (* Get to correct station. *)
  fp <- read_ft07_skip (Z.to_nat (8 * (nsta_ - 1))) fp ;;
  lf <- readline_nonempty fp ;;
  id <- lift (int_o (take 3 (fst lf))) ;;
  if negb (nsta_ =? id)%Z then
    raise (ValueError "Encountered unexpected station ID!") else
  lf <- readline_nonempty (snd lf) ;;
  m <- lift (int_o (take 6 (fst lf))) ;;
  read_ft07_consts [(1, 7); (8, 14); (15, 21); (22, 28); (29, 35); (36, 37)]%nat
    (snd lf) ;;;
  ret m.

(** [LoadConstit(tc, ft03, ft07, year, nsta)]. *)
Definition LoadConstit (ft03 ft07 : list string) (year_ nsta_ : Z)
  : M TideConstitType bool :=
  tc <- get ;;
  (if negb (year tc =? year_)%Z then
     put (set_year tc year_) ;;; read_ft03 ft03 year_ ;;; ret tt
   else ret tt) ;;;
  tc <- get ;;
  (if negb (nsta tc =? nsta_)%Z then
     put (set_nsta tc nsta_) ;;;
     m <- read_ft07 ft07 nsta_ ;;
     tc <- get ;;
     put (set_mllw tc m)
   else ret tt) ;;;
  ret true.

(** ** Extrema locator *)

(** Comparisons of floats used as loop and branch conditions. *)
Definition Req_b (x y : R) : bool := if Req_EM_T x y then true else false.
Definition Rlt_b (x y : R) : bool := if Rlt_dec x y then true else false.

Notation "' p <-? c ;; k" := (obind c (fun x => match x with p => k end))
  (at level 61, p pattern, c at next level, right associativity).

(** [while z1 == z: t1 -= MAX_RES; z1 = tide_t(tc, t1, z0, f_seasonal)];
    returns the final [(t1, z1)]. *)
Fixpoint tie_loop (fuel : nat) (tc : TideConstitType) (z0 : R)
    (f_seasonal : bool) (z t1 z1 : R) : outcome (R * R) :=
  if Req_b z1 z then
    match fuel with
    | O => Running
    | S fuel' =>
        z1' <-? tide_t tc (t1 - MAX_RES) z0 f_seasonal ;;
        tie_loop fuel' tc z0 f_seasonal z (t1 - MAX_RES) z1'
    end
  else Ok (t1, z1).

(** The four monotone walks of [tide_MaxMin]:
    [while z1 < z2] (when [lt]) or [while z1 > z2] (otherwise) do
    [z2 = z1; t1 += dt; z1 = tide_t(tc, t1, z0, f_seasonal)], with
    [dt = -MAX_RES] or [dt = MAX_RES]; returns the final [(t1, z1, z2)]. *)
Fixpoint walk (fuel : nat) (tc : TideConstitType) (z0 : R) (f_seasonal : bool)
    (lt : bool) (dt : R) (t1 z1 z2 : R) : outcome (R * R * R) :=
  if (if lt then Rlt_b z1 z2 else Rlt_b z2 z1) then
    match fuel with
    | O => Running
    | S fuel' =>
        z1' <-? tide_t tc (t1 + dt) z0 f_seasonal ;;
        walk fuel' tc z0 f_seasonal lt dt (t1 + dt) z1' z1
    end
  else Ok (t1, z1, z2).

(** [tide_MaxMin]: returns [(hMax, tMax, hMin, tMin)]; every [while] loop
    runs at most [fuel] iterations. *)
Definition tide_MaxMin (fuel : nat) (tc : TideConstitType) (t z0 : R)
    (f_seasonal : bool) : outcome (R * R * R * R) :=
  if tc_invalid tc then Exc invalid_constit else
  z <-? tide_t tc t z0 f_seasonal ;;
  z1 <-? tide_t tc (t - MAX_RES) z0 f_seasonal ;;
  (* If they are equal, keep going to left. *)
  '(t1, z1) <-? tie_loop fuel tc z0 f_seasonal z (t - MAX_RES) z1 ;;
  if Rlt_b z1 z then
    '(t1, _, z2) <-? walk fuel tc z0 f_seasonal true (- MAX_RES) t1 z1 z ;;
    let hMin := z2 in
    let tMin := t1 + MAX_RES in
    '(t1, _, z2) <-? walk fuel tc z0 f_seasonal false MAX_RES t z z2 ;;
    Ok (z2, t1 - MAX_RES, hMin, tMin)
  else
    '(t1, _, z2) <-? walk fuel tc z0 f_seasonal false (- MAX_RES) t1 z1 z ;;
    let hMax := z2 in
    let tMax := t1 + MAX_RES in
    '(t1, _, z2) <-? walk fuel tc z0 f_seasonal true MAX_RES t z z2 ;;
    Ok (hMax, tMax, z2, t1 - MAX_RES).

(** ** Secondary-station predictor *)

(** [SecondaryType]; the fields [tc], [i], [j] are [st_tc], [st_i],
    [st_j]. *)
Record SecondaryType : Type := mkST {
  secSta : Z;
  maxTime : Z;
  minTime : Z;
  maxAdj : R;
  minAdj : R;
  maxInc : R;
  minInc : R;
  st_tc : TideConstitType;
  name1 : string;
  name2 : string;
  lat : R;
  lon : R;
  bsn : string;
  st_i : Z;
  st_j : Z
}.

Definition SecondaryType_default : SecondaryType :=
  mkST (-1) 0 0 0 0 0 0 TideConstitType_default EmptyString EmptyString 0 0 EmptyString 0 0.

(** The guards opening [secTide_t] and [secTide_hours]. *)
Definition sec_guard (st : SecondaryType) : option exn :=
  if (secSta st <? 1)%Z then Some (ValueError "secSta not initialized correctly!")
  else if tc_invalid (st_tc st) then Some invalid_constit
  else None.

(** [for i in range(5)]: [refT = locT - (minTime*(hMax-refZ) +
    maxTime*(refZ-hMin)) / ((hMax-hMin)*60.)]; [refZ = tide_t(refT)]. *)
Fixpoint sec_refine (n : nat) (st : SecondaryType) (locT z0 : R)
    (f_seasonal : bool) (hMax hMin refT refZ : R) : outcome (R * R) :=
  match n with
  | O => Ok (refT, refZ)
  | S n' =>
      let refT := locT - (IZR (minTime st) * (hMax - refZ)
                          + IZR (maxTime st) * (refZ - hMin))
                         / ((hMax - hMin) * 60) in
      refZ <-? tide_t (st_tc st) refT z0 f_seasonal ;;
      sec_refine n' st locT z0 f_seasonal hMax hMin refT refZ
  end.

(** Steps 4-6, written out identically in [secTide_t] and
    [secTide_hours]: adjust to MLLW, multiplicative and additive
    adjustments. *)
Definition sec_locZ (st : SecondaryType) (hMax hMin refZ : R) : R :=
  let locZ := refZ + IZR (mllw (st_tc st)) / 1000 in
  let locZ := locZ * (minAdj st * (hMax - refZ) + maxAdj st * (refZ - hMin))
              / (hMax - hMin) in
  locZ + (maxInc st * (hMax - refZ) + minInc st * (refZ - hMin)) / (hMax - hMin).

(** [secTide_t]. *)
Definition secTide_t (fuel : nat) (st : SecondaryType) (locT z0 : R)
    (f_seasonal : bool) : outcome R :=
  match sec_guard st with Some e => Exc e | None =>
  let refT := locT - ((IZR (maxTime st) + IZR (minTime st)) / 2) / 60 in
  refZ <-? tide_t (st_tc st) refT z0 f_seasonal ;;
  '(hMax, _, hMin, _) <-? tide_MaxMin fuel (st_tc st) refT z0 f_seasonal ;;
  '(_, refZ) <-? sec_refine 5 st locT z0 f_seasonal hMax hMin refT refZ ;;
  Ok (sec_locZ st hMax hMin refZ)
  end.

(** The loop [for i in range(1, numHours)] of [secTide_hours]: [n] more
    samples from local time [locT], with the previous [refT] and bracket. *)
Fixpoint sec_hours_loop (n : nat) (fuel : nat) (st : SecondaryType)
    (z0 : R) (f_seasonal : bool) (delt locT refT : R)
    (br : R * R * R * R) : outcome (list R) :=
  match n with
  | O => Ok []
  | S n' =>
      let refT := refT + delt in
      refZ <-? tide_t (st_tc st) refT z0 f_seasonal ;;
      (* Compute ref_hMin, ref_hMax surrounding refT *)
      br <-? (let '(_, tMax, _, tMin) := br in
              if Rlt_b tMax refT && Rlt_b tMin refT
              then tide_MaxMin fuel (st_tc st) refT z0 f_seasonal
              else Ok br) ;;
      let '(hMax, _, hMin, _) := br in
      '(refT, refZ) <-? sec_refine 5 st locT z0 f_seasonal hMax hMin refT refZ ;;
      rest <-? sec_hours_loop n' fuel st z0 f_seasonal delt (locT + delt) refT br ;;
      Ok (sec_locZ st hMax hMin refZ :: rest)
  end.

(** [secTide_hours]: [np.empty((numHours,))] raises on a negative length
    and the store [zhr[0] = ...] raises on an empty array. *)
Definition secTide_hours (fuel : nat) (st : SecondaryType) (initHour z0 : R)
    (f_seasonal : bool) (numHours : Z) (delt : R) : outcome (list R) :=
  match sec_guard st with Some e => Exc e | None =>
  if (numHours <? 0)%Z then
    Exc (ValueError "negative dimensions are not allowed") else
  let locT := initHour in
  let refT := locT - ((IZR (maxTime st) + IZR (minTime st)) / 2) / 60 in
  refZ <-? tide_t (st_tc st) refT z0 f_seasonal ;;
  '(hMax, tMax, hMin, tMin) <-? tide_MaxMin fuel (st_tc st) refT z0 f_seasonal ;;
  '(refT, refZ) <-? sec_refine 5 st locT z0 f_seasonal hMax hMin refT refZ ;;
  if (numHours =? 0)%Z then
    Exc (IndexError "index 0 is out of bounds for axis 0 with size 0") else
  rest <-? sec_hours_loop (Z.to_nat numHours - 1) fuel st z0 f_seasonal delt
             (locT + delt) refT (hMax, tMax, hMin, tMin) ;;
  Ok (sec_locZ st hMax hMin refZ :: rest)
  end.

(** ** Secondary-station adjustment table *)

(** Digits with PEP 515 underscores, accumulated onto [acc]; returns the
    value, the number of digits read and the rest of the input. An
    underscore is consumed only between two digits. *)
Fixpoint scan_digits (acc : Z) (cnt : nat) (l : list ascii)
  : Z * nat * list ascii :=
  match l with
  | c :: r =>
      match digit_val c with
      | Some d => scan_digits (acc * 10 + d)%Z (S cnt) r
      | None =>
          match r with
          | c' :: _ =>
              if Ascii.eqb c "_" && negb (cnt =? 0)%nat
                 && (if digit_val c' then true else false)
              then scan_digits acc cnt r else (acc, cnt, l)
          | [] => (acc, cnt, l)
          end
      end
  | [] => (acc, cnt, [])
  end.

(** [float(s)] on finite decimal literals
    [[sign] digits [. digits] [(e|E) [sign] digits]]; the spellings
    [inf], [infinity] and [nan] have no real value and are left out. *)
Definition py_float (s : string) : option R :=
  let l := py_strip (list_ascii_of_string s) in
  let '(neg, l) :=
    match l with
    | c :: r => if Ascii.eqb c "-" then (true, r)
                else if Ascii.eqb c "+" then (false, r) else (false, l)
    | [] => (false, l)
    end in
  let '(ip, ni, r1) := scan_digits 0 0 l in
  let '(m, nf, r2) :=
    match r1 with
    | c :: r => if Ascii.eqb c "." then scan_digits ip 0 r else (ip, 0%nat, r1)
    | [] => (ip, 0%nat, r1)
    end in
  if (ni + nf =? 0)%nat then None else
  let ex : option Z :=
    match r2 with
    | [] => Some 0%Z
    | c :: r =>
        if Ascii.eqb c "e" || Ascii.eqb c "E" then
          let '(eneg, r) :=
            match r with
            | c' :: r' => if Ascii.eqb c' "-" then (true, r')
                          else if Ascii.eqb c' "+" then (false, r') else (false, r)
            | [] => (false, r)
            end in
          let '(e, ne, r3) := scan_digits 0 0 r in
          match r3 with
          | [] => if (ne =? 0)%nat then None
                  else Some (if eneg then (- e)%Z else e)
          | _ => None
          end
        else None
    end in
  match ex with
  | Some e =>
      let v := IZR m * powerRZ 10 (e - Z.of_nat nf) in
      Some (if neg then - v else v)
  | None => None
  end.

Definition float_o (s : string) : outcome R :=
  match py_float s with
  | Some v => Ok v
  | None => Exc (ValueError "could not convert string to float")
  end.

(** [s.find(c)]. *)
Definition str_find (c : ascii) (s : string) : Z :=
  match index 0 (String c EmptyString) s with
  | Some n => Z.of_nat n
  | None => (-1)%Z
  end.

(** [s.strip()]. *)
Definition str_strip (s : string) : string :=
  string_of_list_ascii (py_strip (list_ascii_of_string s)).

Definition bad_format : exn := ValueError "Invalid line formatting for station!".

(** [idx = work_line.find('|')]; raises when there is no [|]; returns the
    field [work_line[:idx]] and the rest [work_line[idx + 1:]]. *)
Definition next_field {S} (work_line : string) : M S (string * string) :=
  let idx := str_find "|" work_line in
  if (idx =? -1)%Z then raise bad_format else
  ret (take (Z.to_nat idx) work_line, drop (Z.to_nat idx + 1) work_line).

(** An ["HH:MM"] field converted to minutes, [hr * 60 + minm]. *)
Definition hhmm_field {S} (fld : string) : M S Z :=
  let idx2 := str_find ":" fld in
  if (idx2 =? -1)%Z then raise bad_format else
  hr <- lift (int_o (take (Z.to_nat idx2) fld)) ;;
  minm <- lift (int_o (drop (Z.to_nat idx2 + 1) fld)) ;;
  ret (hr * 60 + minm)%Z.

Definition modify {S} (f : S -> S) : M S unit := fun s => (Ok tt, f s).

Definition upd_st (st : SecondaryType) (secSta' maxTime' minTime' : Z)
    (maxAdj' minAdj' maxInc' minInc' : R) (tc' : TideConstitType)
    (name1' name2' : string) (lat' lon' : R) (bsn' : string) (i' j' : Z) :=
  mkST secSta' maxTime' minTime' maxAdj' minAdj' maxInc' minInc' tc'
       name1' name2' lat' lon' bsn' i' j'.

Definition set_secSta st v := let s := st in
  upd_st s v (maxTime s) (minTime s) (maxAdj s) (minAdj s) (maxInc s) (minInc s)
    (st_tc s) (name1 s) (name2 s) (lat s) (lon s) (bsn s) (st_i s) (st_j s).
Definition set_maxTime st v := let s := st in
  upd_st s (secSta s) v (minTime s) (maxAdj s) (minAdj s) (maxInc s) (minInc s)
    (st_tc s) (name1 s) (name2 s) (lat s) (lon s) (bsn s) (st_i s) (st_j s).
Definition set_minTime st v := let s := st in
  upd_st s (secSta s) (maxTime s) v (maxAdj s) (minAdj s) (maxInc s) (minInc s)
    (st_tc s) (name1 s) (name2 s) (lat s) (lon s) (bsn s) (st_i s) (st_j s).
Definition set_maxAdj st v := let s := st in
  upd_st s (secSta s) (maxTime s) (minTime s) v (minAdj s) (maxInc s) (minInc s)
    (st_tc s) (name1 s) (name2 s) (lat s) (lon s) (bsn s) (st_i s) (st_j s).
Definition set_minAdj st v := let s := st in
  upd_st s (secSta s) (maxTime s) (minTime s) (maxAdj s) v (maxInc s) (minInc s)
    (st_tc s) (name1 s) (name2 s) (lat s) (lon s) (bsn s) (st_i s) (st_j s).
Definition set_incs st v := let s := st in
  upd_st s (secSta s) (maxTime s) (minTime s) (maxAdj s) (minAdj s) v v
    (st_tc s) (name1 s) (name2 s) (lat s) (lon s) (bsn s) (st_i s) (st_j s).
Definition set_st_tc st v := let s := st in
  upd_st s (secSta s) (maxTime s) (minTime s) (maxAdj s) (minAdj s) (maxInc s)
    (minInc s) v (name1 s) (name2 s) (lat s) (lon s) (bsn s) (st_i s) (st_j s).
Definition set_name1 st v := let s := st in
  upd_st s (secSta s) (maxTime s) (minTime s) (maxAdj s) (minAdj s) (maxInc s)
    (minInc s) (st_tc s) v (name2 s) (lat s) (lon s) (bsn s) (st_i s) (st_j s).
Definition set_name2 st v := let s := st in
  upd_st s (secSta s) (maxTime s) (minTime s) (maxAdj s) (minAdj s) (maxInc s)
    (minInc s) (st_tc s) (name1 s) v (lat s) (lon s) (bsn s) (st_i s) (st_j s).
Definition set_bsn st v := let s := st in
  upd_st s (secSta s) (maxTime s) (minTime s) (maxAdj s) (minAdj s) (maxInc s)
    (minInc s) (st_tc s) (name1 s) (name2 s) (lat s) (lon s) v (st_i s) (st_j s).
Definition set_st_i st v := let s := st in
  upd_st s (secSta s) (maxTime s) (minTime s) (maxAdj s) (minAdj s) (maxInc s)
    (minInc s) (st_tc s) (name1 s) (name2 s) (lat s) (lon s) (bsn s) v (st_j s).
Definition set_st_j st v := let s := st in
  upd_st s (secSta s) (maxTime s) (minTime s) (maxAdj s) (minAdj s) (maxInc s)
    (minInc s) (st_tc s) (name1 s) (name2 s) (lat s) (lon s) (bsn s) (st_i s) v.
Definition set_lat st v := let s := st in
  upd_st s (secSta s) (maxTime s) (minTime s) (maxAdj s) (minAdj s) (maxInc s)
    (minInc s) (st_tc s) (name1 s) (name2 s) v (lon s) (bsn s) (st_i s) (st_j s).
Definition set_lon st v := let s := st in
  upd_st s (secSta s) (maxTime s) (minTime s) (maxAdj s) (minAdj s) (maxInc s)
    (minInc s) (st_tc s) (name1 s) (name2 s) (lat s) v (bsn s) (st_i s) (st_j s).

(** Runs a computation on [st.tc], the object [LoadConstit(st.tc, ...)]
    mutates. *)
Definition on_st_tc {A} (c : M TideConstitType A) : M SecondaryType A :=
  fun st => let '(o, tc') := c (st_tc st) in (o, set_st_tc st tc').

(** The search loop [for line in fp] of [LoadSecond]; returns the text after
    the first [|] of the station's line. *)
Fixpoint find_station (ft08 : list string) (secSta_ : Z)
  : M SecondaryType string :=
  match ft08 with
  | [] => raise (ValueError "Couldn't find the station in FT08 file!")
  | line :: rest =>
      match line with
      | EmptyString => raise (IndexError "string index out of range")
      | String c _ =>
          if Ascii.eqb c "#" then find_station rest secSta_ else
          let idx := str_find "|" line in
          if (idx =? -1)%Z then find_station rest secSta_ else
          num <- lift (int_o (take (Z.to_nat idx) line)) ;;
          if negb (num =? secSta_)%Z then find_station rest secSta_ else
          modify (fun st => set_secSta st secSta_) ;;;
          ret (drop (Z.to_nat idx + 1) line)
      end
  end.

(** [LoadSecond(st, ft03, ft07, ft08, year, secSta)]. *)
Definition LoadSecond (ft03 ft07 ft08 : list string) (year_ secSta_ : Z)
  : M SecondaryType bool :=
  st <- get ;;
  if (secSta st =? secSta_)%Z then
    on_st_tc (LoadConstit ft03 ft07 year_ (nsta (st_tc st)))
  else
  w <- find_station ft08 secSta_ ;;
  fw <- next_field w ;;
  modify (fun st => set_name1 st (str_strip (fst fw))) ;;;
  fw <- next_field (snd fw) ;;
  modify (fun st => set_name2 st (str_strip (fst fw))) ;;;
  fw <- next_field (snd fw) ;;
  modify (fun st => set_bsn st (str_strip (fst fw))) ;;;
  fw <- next_field (snd fw) ;;
  v <- lift (int_o (fst fw)) ;;
  modify (fun st => set_st_i st v) ;;;
  fw <- next_field (snd fw) ;;
  v <- lift (int_o (fst fw)) ;;
  modify (fun st => set_st_j st v) ;;;
  fw <- next_field (snd fw) ;;
  v <- lift (float_o (fst fw)) ;;
  modify (fun st => set_lat st v) ;;;
  fw <- next_field (snd fw) ;;
  v <- lift (float_o (fst fw)) ;;
  modify (fun st => set_lon st v) ;;;
  fw <- next_field (snd fw) ;;
  refSta <- lift (int_o (fst fw)) ;;
  fw <- next_field (snd fw) ;;
  v <- hhmm_field (fst fw) ;;
  modify (fun st => set_maxTime st v) ;;;
  fw <- next_field (snd fw) ;;
  v <- hhmm_field (fst fw) ;;
  modify (fun st => set_minTime st v) ;;;
  fw <- next_field (snd fw) ;;
  v <- lift (float_o (fst fw)) ;;
  modify (fun st => set_maxAdj st v) ;;;
  v <- lift (float_o (snd fw)) ;;
  modify (fun st => set_minAdj st v) ;;;
  modify (fun st => set_incs st 0) ;;;
  on_st_tc (LoadConstit ft03 ft07 year_ refSta).

(** ** Multi-year driver *)

(** [TideType]: the files are arguments of [TideC_stn]; the state is the
    pair of constituent structures. *)
Record TideType : Type := mkTT {
  tt_tc : TideConstitType;
  tt_st : SecondaryType
}.

Definition TideType_default : TideType :=
  mkTT TideConstitType_default SecondaryType_default.

(** [str.lower()] on ASCII. *)
Definition str_lower (s : string) : string :=
  string_of_list_ascii
    (map (fun c => let n := nat_of_ascii c in
                   if (65 <=? n)%nat && (n <=? 90)%nat
                   then ascii_of_nat (n + 32) else c)
         (list_ascii_of_string s)).

(** [366 * 24] in a leap year of the Gregorian rule, [365 * 24] otherwise. *)
Definition totHour_of (y : Z) : Z :=
  if ((y mod 4 =? 0) && (negb (y mod 100 =? 0) || (y mod 400 =? 0)))%Z
  then (366 * 24)%Z else (365 * 24)%Z.

Section Driver.

Variables (fuel : nat) (station : Z) (ft03 ft07 ft08 : list string)
          (is_seasonal is_secondary : bool) (delt : R).

(** The load step of [TideC_stn] for [year_]: [LoadConstit] into [tt.tc] or
    [LoadSecond] into [tt.st]; a [False] result raises [IOError]. *)
Definition load_year (tt : TideType) (year_ : Z) : outcome TideType :=
  if negb is_secondary then
    match LoadConstit ft03 ft07 year_ station (tt_tc tt) with
    | (Ok true, tc') => Ok (mkTT tc' (tt_st tt))
    | (Ok false, _) => Exc (IOError "Unable to load primary contituents!")
    | (Exc e, _) => Exc e
    | (Running, _) => Running
    end
  else
    match LoadSecond ft03 ft07 ft08 year_ station (tt_st tt) with
    | (Ok true, st') => Ok (mkTT (tt_tc tt) st')
    | (Ok false, _) => Exc (IOError "Unable to load secondary tides!")
    | (Exc e, _) => Exc e
    | (Running, _) => Running
    end.

(** [tide_hours(tt.tc, ...)] or [secTide_hours(tt.st, ...)]. *)
Definition series (tt : TideType) (initHour : Z) (initHeight : R) (n : Z)
  : outcome (list R) :=
  if negb is_secondary
  then tide_hours (tt_tc tt) (IZR initHour) initHeight is_seasonal n delt
  else secTide_hours fuel (tt_st tt) (IZR initHour) initHeight is_seasonal n delt.

(** The [while numHour > 0] loop of the one-day chunks; [k] bounds the
    number of iterations (each one lowers [numHour] by 24, so [k = numHour]
    is enough). *)
Fixpoint chunk_loop (k : nat) (tt : TideType) (year_ totHour initHour numHour : Z)
    (initHeight : R) (data : list R) : outcome (list R) :=
  if (0 <? numHour)%Z then
    match k with
    | O => Running
    | S k' =>
        (* check if we crossed the year boundary. *)
        let crossed := (totHour <=? initHour)%Z in
        let initHour := if crossed then (initHour - totHour)%Z else initHour in
        let year_ := if crossed then (year_ + 1)%Z else year_ in
        let totHour := if crossed then totHour_of year_ else totHour in
        tt <-? (if crossed then load_year tt year_ else Ok tt) ;;
        zhr <-? series tt initHour initHeight
                  (if (numHour >? 24)%Z then 24%Z else numHour) ;;
        chunk_loop k' tt year_ totHour (initHour + 24)%Z (numHour - 24)%Z
          initHeight (data ++ zhr)
    end
  else Ok data.

(** The [cmd == 'hourly'] part of [TideC_stn] after the first load. *)
Definition hourly (tt : TideType) (year_ initHour numHour : Z) (initHeight : R)
  : outcome (list R) :=
  (* Make sure they don't cross the year boundary. *)
  if (numHour + initHour <? 365 * 24)%Z then
    series tt initHour initHeight numHour
  else
    (* Get to end of first day... *)
    let endHour := (24 - initHour mod 24)%Z in
    let endHour := if (endHour >? numHour)%Z then numHour else endHour in
    zhr <-? series tt initHour initHeight endHour ;;
    let data := zhr in
    let initHour := (initHour + endHour)%Z in
    let numHour := (numHour - endHour)%Z in
    chunk_loop (Z.to_nat numHour) tt year_ (totHour_of year_) initHour numHour
      initHeight data.

End Driver.

(** [TideC_stn(cmd, station, date, numHour, initHeight, ft03, ft07, ft08,
    is_seasonal, is_secondary, add_mllw, delt)]. The time-zone aware [date]
    enters as [date.year] and the whole hours since January 1 of that year,
    [initHour = int((date - Jan 1) / 3600 s)]; [None] is [pd.NaT].
    [fuel] bounds the [while] loops of [tide_MaxMin]. *)
Definition TideC_stn (fuel : nat) (cmd : string) (station : Z)
    (date : option (Z * Z)) (numHour : Z) (initHeight : R)
    (ft03 ft07 ft08 : list string) (is_seasonal is_secondary add_mllw : bool)
    (delt : R) : outcome (list R) :=
  if negb (String.eqb (str_lower cmd) "hourly") then
    Exc (NotImplementedError "Only hourly is implemented for now!") else
  let tt := TideType_default in
  if negb (Req_b delt 1) && (Rlt_b 1 delt || Rlt_b 24 (delt * IZR numHour)) then
    Exc (ValueError "If not 1, `delt` should be less than 1, and multipled by `numHour` it should be less than 24")
  else
  match date with
  | None => Exc (ValueError "To run hourly tide calculation `date` must be provided")
  | Some (year_, initHour) =>
  if (station =? -1)%Z then Exc (ValueError "Station input must be provided!") else
  if negb ((1800 <=? year_) && (year_ <=? 2045))%Z then
    Exc (ValueError "Date must be between year 1800 and 2045!") else
  tt <-? load_year station ft03 ft07 ft08 is_secondary tt year_ ;;
  let initHeight :=
    if negb is_secondary then
      (if add_mllw then initHeight + IZR (mllw (tt_tc tt)) / 1000 else initHeight)
    else
      (if add_mllw then initHeight
       else initHeight - IZR (mllw (st_tc (tt_st tt))) / 1000) in
  hourly fuel station ft03 ft07 ft08 is_seasonal is_secondary delt
    tt year_ initHour numHour initHeight
  end.

(** ** Steps 4-6 of the secondary predictor, by parts *)




(** Two outcomes of the same control flow: both succeed with results
    related by [P], both raise the same exception, or both run out of
    their loop bound. *)
Definition orel {A B} (P : A -> B -> Prop) (o1 : outcome A) (o2 : outcome B) : Prop :=
  match o1, o2 with
  | Ok a, Ok b => P a b
  | Exc e1, Exc e2 => e1 = e2
  | Running, Running => True
  | _, _ => False
  end.



(** ** The test driver [main] *)

(** [str(n)] for a natural number: its decimal digits. *)
Fixpoint str_digits (fuel n : nat) (acc : string) : string :=
  match fuel with
  | O => acc
  | S f =>
      let acc := String (ascii_of_nat (48 + n mod 10)) acc in
      if (n <? 10)%nat then acc else str_digits f (n / 10) acc
  end.

Definition py_str_nat (n : nat) : string := str_digits (S n) n EmptyString.

(** A run of [print] calls: the printed pairs [f'{a} {b}'] as [(a, b)], and
    how the run ended. *)
Definition printed : Type := list (R * R) * outcome unit.

(** Two runs one after the other; the second runs only if the first ended
    normally. *)
Definition then_run (p : printed) (q : printed) : printed :=
  match snd p with
  | Ok _ => (fst p ++ fst q, snd q)
  | _ => p
  end.

(** [for i in range(i, i + k): print(f'{i} {zhr[i]}')]; reading past the end
    of the numpy array raises [IndexError]. *)
Fixpoint print_zhr (k i : nat) (zhr : list R) : printed :=
  match k with
  | O => ([], Ok tt)
  | S k' =>
      match nth_error zhr i with
      | Some v => let '(p, o) := print_zhr k' (S i) zhr in ((INR i, v) :: p, o)
      | None => ([], Exc (IndexError ("index " ++ py_str_nat i
                   ++ " is out of bounds for axis 0 with size "
                   ++ py_str_nat (List.length zhr))))
      end
  end.

(** [for i in range(i, i + k): z = f(ih + i * 0.1); print(f'{i * 0.1} {z}')] *)
Fixpoint print_t (k i : nat) (f : R -> outcome R) (ih : R) : printed :=
  match k with
  | O => ([], Ok tt)
  | S k' =>
      let u := INR i * (1 / 10) in
      match f (ih + u) with
      | Ok z => let '(p, o) := print_t k' (S i) f ih in ((u, z) :: p, o)
      | Exc e => ([], Exc e)
      | Running => ([], Running)
      end
  end.

(** [main(args)] after [parse_cli()]: [type_] is [args.type], [nsta_] is
    [args.station], [year_] the year of [args.datetime] and [ih] its whole
    hours since January 1 of that year, [numHours], [f_mllw] and
    [f_seasonal] the other arguments; [ft03], [ft07] and [ft08] are the
    contents of ["ft03.dta"], ["ft07.dta"] and ["ft08.dta"]. *)
Definition main (fuel : nat) (type_ : string) (nsta_ year_ ih numHours : Z)
    (f_mllw f_seasonal : bool) (ft03 ft07 ft08 : list string) : printed :=
  let tc := TideConstitType_default in
  let st := SecondaryType_default in
  let z0 := 0 in
  if negb (String.eqb type_ "primary" || String.eqb type_ "secondary") then
    ([], Exc (ValueError ("Type " ++ type_ ++ " is not supported!"))) else
  (* zhr = np.empty((numHours,)) *)
  if (numHours <? 0)%Z then
    ([], Exc (ValueError "negative dimensions are not allowed")) else
  if String.eqb type_ "primary" then
    match LoadConstit ft03 ft07 year_ nsta_ tc with
    | (Ok true, tc) =>
        let z0 := if f_mllw then z0 + IZR (mllw tc) / 1000 else z0 in
        match tide_hours tc (IZR ih) z0 f_seasonal numHours 1 with
        | Ok zhr =>
            then_run (print_zhr 12 0 zhr)
              (print_t 11 0 (fun u => tide_t tc u z0 f_seasonal) (IZR ih))
        | Exc e => ([], Exc e)
        | Running => ([], Running)
        end
    | (Ok false, _) => ([], Exc (IOError "Unable to load primary contituents!"))
    | (Exc e, _) => ([], Exc e)
    | (Running, _) => ([], Running)
    end
  else
    match LoadSecond ft03 ft07 ft08 year_ nsta_ st with
    | (Ok true, st) =>
        (* Don't add mllw to secondary stations ... *)
        let z0 := if negb f_mllw then z0 - IZR (mllw tc) / 1000 else z0 in
        match secTide_hours fuel st (IZR ih) z0 f_seasonal numHours 1 with
        | Ok zhr =>
            then_run (print_zhr 24 0 zhr)
              (print_t 11 0 (fun u => secTide_t fuel st u z0 f_seasonal) (IZR ih))
        | Exc e => ([], Exc e)
        | Running => ([], Running)
        end
    | (Ok false, _) => ([], Exc (IOError "Unable to load secondary tides!"))
    | (Exc e, _) => ([], Exc e)
    | (Running, _) => ([], Running)
    end.

(** ** Concrete inputs *)

Definition nl : string := String (ascii_of_nat 10) EmptyString.

Fixpoint rep (n : nat) (s : string) : string :=
  match n with
  | O => EmptyString
  | S n' => s ++ rep n' s
  end.

(** A line of the yearly file: the year tag, four filler columns and [k]
    fields [nodeFactor×1000][phaseLead×10] of four digits each. *)
Definition ft03_line (tag : string) (k : nat) : string :=
  tag ++ "    " ++ rep k "10001234" ++ nl.

(** A yearly file holding one block for 2020 whose third line carries the
    year tag 2021. *)
Definition ft03_bad_tag : list string :=
  [ft03_line "2020" 8; ft03_line "2020" 8; ft03_line "2021" 8;
   ft03_line "2020" 8; ft03_line "2020" 5].

(** A constituent set loaded for station 1 and year 2023. *)
Definition tc_2023 : TideConstitType :=
  mkTC 5 1 2023 (fun _ => 1) (fun _ => 2) (fun _ => 3) (fun _ => 4) (fun _ => 5).

(** A constituent set loaded for station 1 and year 2023 whose amplitudes
    are all zero: a flat tide. *)
Definition tc_flat : TideConstitType :=
  mkTC 0 1 2023 np_empty np_empty np_empty np_empty np_empty.

(** A constituent set loaded for station 1 and year 2023 with one
    constituent of unit amplitude, speed [1800] degrees per hour and no
    phase: its height is [cos (10 pi t)], a period of [0.2] hours. *)
Definition tc_wave : TideConstitType :=
  mkTC 0 1 2023 (fun _ => 1) np_empty (fun _ => 1800)
    (fun i => if Nat.eqb i 0 then 1 else 0) np_empty.

(** A secondary station with no time offsets, unit scales, no additive
    terms and the reference station [tc_wave]. *)
Definition st_wave : SecondaryType :=
  mkST 1 0 0 1 1 0 0 tc_wave EmptyString EmptyString 0 0 EmptyString 0 0.

(** Files for secondary station [5] of 2023 referenced to primary station
    [1]. ft03: unit node factors and zero equilibrium arguments. ft07:
    every speed [900] degrees per hour, MLLW [500], and a first constituent
    of amplitude field [1000] and epoch [0], all others zero. ft08: an
    adjustment row with no time offsets and unit scales. *)
Definition ft03_wave : list string :=
  [ "2023    " ++ rep 8 "10000000" ++ nl; "2023    " ++ rep 8 "10000000" ++ nl;
    "2023    " ++ rep 8 "10000000" ++ nl; "2023    " ++ rep 8 "10000000" ++ nl;
    "2023    " ++ rep 5 "10000000" ++ nl ]%string.

Definition ft07_wave : list string :=
  [ rep 7 "9000000000" ++ nl; rep 7 "9000000000" ++ nl; rep 7 "9000000000" ++ nl;
    rep 7 "9000000000" ++ nl; rep 7 "9000000000" ++ nl; rep 2 "9000000000" ++ nl;
    "  1" ++ nl; "   500" ++ nl;
    "        " ++ " 1000   0" ++ rep 6 "    0   0" ++ nl;
    "        " ++ rep 7 "    0   0" ++ nl; "        " ++ rep 7 "    0   0" ++ nl;
    "        " ++ rep 7 "    0   0" ++ nl; "        " ++ rep 7 "    0   0" ++ nl;
    "        " ++ rep 2 "    0   0" ++ nl ]%string.

Definition ft08_wave : list string :=
  [ "# secondary stations" ++ nl;
    "5|Wave Point|Test|GLO|1|2|10.5|-20.25|1|0:00|0:00|1.0|1.0" ++ nl ]%string.

(** The reference station that [LoadSecond] builds from these files, up
    to the cells past [NUMT]: its height is [cos (5 pi t)] above MLLW
    [500]. *)
Definition tc_wave900 : TideConstitType :=
  mkTC 500 1 2023 (fun _ => 1) np_empty (fun _ => 900)
    (fun i => if Nat.eqb i 0 then 1 else 0) np_empty.

(** The [LoadSecond] call on these files, evaluated once. *)
Definition load_wave : outcome bool * SecondaryType :=
  Eval cbv -[IZR Rdiv Rmult Rplus Rminus Ropp Rinv] in
    LoadSecond ft03_wave ft07_wave ft08_wave 2023 5 SecondaryType_default.

Definition st_loaded : SecondaryType := snd load_wave.

(** The [LoadConstit] call on these files for primary station [1], evaluated
    once. *)
Definition load_prim : outcome bool * TideConstitType :=
  Eval cbv -[IZR Rdiv Rmult Rplus Rminus Ropp Rinv] in
    LoadConstit ft03_wave ft07_wave 2023 1 TideConstitType_default.

(** [o] raises nothing: it succeeds or runs out of its loop bound. *)
Definition noexc {A} (o : outcome A) : Prop := forall e, o <> Exc e.

(** ** Relational reading of the readers *)

(** [c] run from two states related by [P] gives the same outcome, and on
    success two states related by [Q]. *)
Definition rel_M {S A} (P Q : S -> S -> Prop) (c : M S A) : Prop :=
  forall s s', P s s' ->
    fst (c s) = fst (c s')
    /\ (forall a, fst (c s) = Ok a -> Q (snd (c s)) (snd (c s'))).

(** [c] leaves [key] of the state unchanged. *)
Definition keeps {S A K} (key : S -> K) (c : M S A) : Prop :=
  forall s, key (snd (c s)) = key s.

(** Two arrays of the state agree below index [k]. *)
Definition agree (f : TideConstitType -> nat -> R) (k : nat)
    (s s' : TideConstitType) : Prop :=
  forall j, (j < k)%nat -> f s j = f s' j.

Definition AXV (k : nat) (s s' : TideConstitType) : Prop :=
  agree xode k s s' /\ agree vpu k s s'.
Definition AAE (k : nat) (s s' : TideConstitType) : Prop :=
  agree ang k s s' /\ agree amp k s s' /\ agree epoc k s s'.

(** What [read_ft03] leaves alone, and what [read_ft07] leaves alone. *)
Definition key03 (tc : TideConstitType) :=
  (mllw tc, nsta tc, year tc, ang tc, amp tc, epoc tc).
Definition key07 (tc : TideConstitType) :=
  (mllw tc, nsta tc, year tc, xode tc, vpu tc).

(** * Properties *)

(** ** Harmonic synthesizer *)

(** The term [i] of the spec's sum:
    [nodeFactor[i]·amplitude[i]·cos(π/180·(speed[i]·t + phaseLead[i] − epoch[i]))]. *)
Definition spec_term (tc : TideConstitType) (t : R) (i : nat) : R :=
  xode tc i * amp tc i * cos (PI / 180 * (ang tc i * t + vpu tc i - epoc tc i)).

(** The indices the spec's sum runs over: all of [0 .. 36], or all but the
    two seasonal terms [14] and [16] when [seasonal] is false. *)
Definition spec_indices (seasonal : bool) : list nat :=
  filter (fun i => seasonal || negb ((i =? 14)%nat || (i =? 16)%nat)) (seq 0 NUMT).

(** The constituent set with amplitudes [14] and [16] set to zero. *)
Definition zero_seasonal (tc : TideConstitType) : TideConstitType :=
  set_amp tc (upd (upd (amp tc) 14 0) 16 0).

Lemma tc_valid_iff (tc : TideConstitType) :
  tc_invalid tc = false <-> (1 <= nsta tc)%Z /\ year tc <> (-1)%Z.
Proof.
  unfold tc_invalid; rewrite orb_false_iff, Z.ltb_ge, Z.eqb_neq; tauto.
Qed.

Lemma eqn_row_eqn_t (tc : TideConstitType) (t : R) :
  eqn_row tc t = eqn_t tc t.
Proof.
  unfold eqn_row, eqn_t; apply map_ext; intro i; now rewrite (Rmult_comm t).
Qed.

Lemma nth_map_seq {A} (h : nat -> A) (n k : nat) (d : A) :
  (k < n)%nat -> nth k (map h (seq 0 n)) d = h k.
Proof.
  intro Hk.
  rewrite nth_indep with (d' := h 0%nat) by (rewrite length_map, length_seq; exact Hk).
  rewrite map_nth, seq_nth by exact Hk; reflexivity.
Qed.

(** C1: on a loaded constituent set, [tide_t] is the baseline plus the sum
    of [nodeFactor·amplitude·cos(π/180·(speed·t + phaseLead − epoch))] over
    all 37 constituents, or over all but indices 14 and 16 when [seasonal]
    is false; the non-seasonal result equals the seasonal result with
    amplitudes 14 and 16 set to zero. *)
Theorem tide_t_synthesis (tc : TideConstitType) (t z0 : R) (seasonal : bool) :
  (1 <= nsta tc)%Z -> year tc <> (-1)%Z ->
  tide_t tc t z0 seasonal
    = Ok (z0 + np_sum (map (spec_term tc t) (spec_indices seasonal)))
  /\ tide_t tc t z0 false = tide_t (zero_seasonal tc) t z0 true.
Proof.
  intros Hn Hy.
  assert (Hv : tc_invalid tc = false) by (apply tc_valid_iff; auto).
  assert (Hv' : tc_invalid (zero_seasonal tc) = false) by exact Hv.
  unfold tide_t; rewrite Hv, Hv'; split.
  - destruct seasonal; [reflexivity|f_equal].
    unfold eqn_t, spec_indices, spec_term, np_sum; simpl; ring.
  - f_equal. unfold eqn_t, zero_seasonal, spec_term, upd; simpl.
    rewrite !Rmult_0_r, !Rmult_0_l. ring.
Qed.

Lemma tide_t_synthesis_witness :
  (1 <= nsta (mkTC 0 1 2023 np_empty np_empty np_empty np_empty np_empty))%Z
  /\ year (mkTC 0 1 2023 np_empty np_empty np_empty np_empty np_empty) <> (-1)%Z
  /\ tide_t (mkTC 0 1 2023 np_empty np_empty np_empty np_empty np_empty) 1 0 false
     = Ok (0 + np_sum (map (spec_term
             (mkTC 0 1 2023 np_empty np_empty np_empty np_empty np_empty) 1)
             (spec_indices false))).
Proof.
  split; [simpl; lia|]. split; [simpl; lia|].
  apply (proj1 (tide_t_synthesis
                  (mkTC 0 1 2023 np_empty np_empty np_empty np_empty np_empty)
                  1 0 false ltac:(simpl; lia) ltac:(simpl; lia))).
Defined.

(** C2: on a loaded constituent set, [tide_hours] returns [numHours]
    samples and sample [k] is [tide_t] at [initHour + k·delt]. *)
Theorem tide_hours_pointwise (tc : TideConstitType) (initHour z0 : R)
    (seasonal : bool) (numHours : Z) (delt : R) :
  (1 <= nsta tc)%Z -> year tc <> (-1)%Z -> (0 <= numHours)%Z ->
  exists zs, tide_hours tc initHour z0 seasonal numHours delt = Ok zs
    /\ List.length zs = Z.to_nat numHours
    /\ forall k, (k < Z.to_nat numHours)%nat ->
         tide_t tc (initHour + INR k * delt) z0 seasonal = Ok (nth k zs 0).
Proof.
  intros Hn Hy Hh.
  assert (Hv : tc_invalid tc = false) by (apply tc_valid_iff; auto).
  unfold tide_hours; rewrite Hv.
  replace (numHours <? 0)%Z with false by (symmetry; apply Z.ltb_ge; lia).
  destruct seasonal; (eexists; split; [reflexivity|]);
    (split; [rewrite !length_map, length_seq; reflexivity|]);
    intros k Hk; unfold tide_t; rewrite Hv;
    rewrite map_map, nth_map_seq by exact Hk; f_equal;
    rewrite eqn_row_eqn_t; ring.
Qed.

Lemma tide_hours_pointwise_witness :
  exists zs,
    tide_hours (mkTC 0 1 2023 np_empty np_empty np_empty np_empty np_empty)
      0 0 true 3 1 = Ok zs /\ List.length zs = 3%nat
    /\ tide_t (mkTC 0 1 2023 np_empty np_empty np_empty np_empty np_empty)
         (0 + INR 2 * 1) 0 true = Ok (nth 2 zs 0).
Proof.
  destruct (tide_hours_pointwise
              (mkTC 0 1 2023 np_empty np_empty np_empty np_empty np_empty)
              0 0 true 3 1 ltac:(simpl; lia) ltac:(simpl; lia) ltac:(lia))
    as [zs [H1 [H2 H3]]].
  exists zs; split; [exact H1|]; split; [exact H2|].
  apply H3; simpl; lia.
Defined.

(** ** Constituent store *)

(** C6 (code defect): [read_ft03] checks the year tag of the first line of
    the block only; the tags of lines 2-5 are parsed and discarded, so a
    block whose third line is tagged 2021 loads as year 2020. *)
Theorem read_ft03_ignores_later_tags :
  int_o (take 4 (nth 2 ft03_bad_tag EmptyString)) = Ok 2021%Z
  /\ fst (read_ft03 ft03_bad_tag 2020 TideConstitType_default) = Ok true.
Proof. split; reflexivity. Qed.

(** C7 (code defect): [LoadConstit] stores the new year key before
    [read_ft03] runs, so a failing load (here a year before the file's
    first year) leaves the key changed over the old arrays, and a second
    call with that key skips the load and reports success. *)
Theorem LoadConstit_failed_load_changes_key :
  fst (LoadConstit ft03_bad_tag [] 1999 1 tc_2023)
    = Exc (ValueError "Invalid year from ft03")
  /\ year (snd (LoadConstit ft03_bad_tag [] 1999 1 tc_2023)) = 1999%Z
  /\ xode (snd (LoadConstit ft03_bad_tag [] 1999 1 tc_2023)) = xode tc_2023
  /\ fst (LoadConstit ft03_bad_tag [] 1999 1
            (snd (LoadConstit ft03_bad_tag [] 1999 1 tc_2023))) = Ok true
  /\ fst (LoadConstit ft03_bad_tag [] 1999 1 tc_2023) <> Ok true.
Proof. repeat split; try reflexivity; discriminate. Qed.

(** ** Readers: outcome independent of the state, all cells overwritten *)

Section RelM.
Context {S : Type}.

Lemma rel_bind {A B} (P Q R0 : S -> S -> Prop) (c : M S A) (k : A -> M S B) :
  rel_M P Q c -> (forall a, rel_M Q R0 (k a)) -> rel_M P R0 (bind c k).
Proof.
  intros Hc Hk s s' HP; unfold bind.
  destruct (Hc s s' HP) as [Ho Hpost].
  destruct (c s) as [o s1], (c s') as [o' s1']; simpl in *; subst o'.
  destruct o as [a|e|]; simpl; auto.
  - apply Hk, (Hpost a eq_refl).
  - split; [reflexivity| discriminate].
  - split; [reflexivity| discriminate].
Qed.

Lemma rel_ret {A} (P : S -> S -> Prop) (a : A) : rel_M P P (ret a).
Proof. intros s s' HP; split; [reflexivity|]; intros; exact HP. Qed.

Lemma rel_raise {A} (P Q : S -> S -> Prop) (e : exn) : rel_M P Q (@raise S A e).
Proof. intros s s' _; split; [reflexivity| discriminate]. Qed.

Lemma rel_lift {A} (P : S -> S -> Prop) (o : outcome A) : rel_M P P (lift o).
Proof. intros s s' HP; split; [reflexivity| intros; exact HP]. Qed.

Lemma rel_get_put (P Q : S -> S -> Prop) (F : S -> S) :
  (forall s s', P s s' -> Q (F s) (F s')) ->
  rel_M P Q (x <- get ;; put (F x)).
Proof. intros HF s s' HP; split; [reflexivity| intros; apply HF, HP]. Qed.

Lemma rel_weaken {A} (P P' Q Q' : S -> S -> Prop) (c : M S A) :
  (forall s s', P' s s' -> P s s') -> (forall s s', Q s s' -> Q' s s') ->
  rel_M P Q c -> rel_M P' Q' c.
Proof.
  intros HP HQ Hc s s' H; destruct (Hc s s' (HP _ _ H)) as [H1 H2].
  split; [exact H1| intros a Ha; apply HQ, (H2 a Ha)].
Qed.

Lemma keeps_bind {A B K} (key : S -> K) (c : M S A) (k : A -> M S B) :
  keeps key c -> (forall a, keeps key (k a)) -> keeps key (bind c k).
Proof.
  intros Hc Hk s; unfold bind; specialize (Hc s).
  destruct (c s) as [o s1]; simpl in Hc.
  destruct o; simpl; [rewrite Hk|..]; exact Hc.
Qed.

Lemma keeps_ret {A K} (key : S -> K) (a : A) : keeps key (ret a).
Proof. intro; reflexivity. Qed.

Lemma keeps_raise {A K} (key : S -> K) (e : exn) : keeps key (@raise S A e).
Proof. intro; reflexivity. Qed.

Lemma keeps_lift {A K} (key : S -> K) (o : outcome A) : keeps key (lift o).
Proof. intro; reflexivity. Qed.

Lemma keeps_get_put {K} (key : S -> K) (F : S -> S) :
  (forall s, key (F s) = key s) -> keeps key (x <- get ;; put (F x)).
Proof. intros HF s; apply HF. Qed.

End RelM.

Lemma agree_upd (f : TideConstitType -> nat -> R) (k : nat) (s s' : TideConstitType)
    (g g' : nat -> R) (v : R) :
  agree f k s s' -> (forall j, g j = f s j) -> (forall j, g' j = f s' j) ->
  forall j, (j < S k)%nat -> upd g k v j = upd g' k v j.
Proof.
  intros H Hg Hg' j Hj; unfold upd.
  destruct (Nat.eqb_spec j k); [reflexivity|].
  rewrite Hg, Hg'; apply H; lia.
Qed.

Lemma rel_get_put_bind {S B} (P Q R0 : S -> S -> Prop) (F : S -> S) (k : M S B) :
  (forall s s', P s s' -> Q (F s) (F s')) -> rel_M Q R0 k ->
  rel_M P R0 (x <- get ;; put (F x) ;;; k).
Proof. intros HF Hk s s' HP; exact (Hk (F s) (F s') (HF s s' HP)). Qed.

Lemma keeps_get_put_bind {S B K} (key : S -> K) (F : S -> S) (k : M S B) :
  (forall s, key (F s) = key s) -> keeps key k ->
  keeps key (x <- get ;; put (F x) ;;; k).
Proof. intros HF Hk s; exact (eq_trans (Hk (F s)) (HF s)). Qed.

Lemma rf03_loop_rel (n : nat) : forall i line, (1 <= i)%nat ->
  rel_M (AXV (i - 1)) (AXV (i - 1 + n)) (read_format_ft03_loop i n line).
Proof.
  induction n as [|n IH]; intros i line Hi; simpl.
  - rewrite Nat.add_0_r; apply rel_ret.
  - eapply rel_bind; [apply rel_lift| intro a].
    apply rel_get_put_bind with
      (Q := fun s s' => agree xode i s s' /\ agree vpu (i - 1) s s').
    { intros s s' [Hx Hv]; split; [|exact Hv]; simpl.
      intros j Hj; apply (agree_upd xode (i - 1) s s'); auto; lia. }
    eapply rel_bind; [apply rel_lift| intro b].
    apply rel_get_put_bind with (Q := AXV i).
    { intros s s' [Hx Hv]; split; [exact Hx|]; simpl.
      intros j Hj; apply (agree_upd vpu (i - 1) s s'); auto; lia. }
    eapply rel_weaken; [| |apply (IH (S i)); lia].
    + simpl; intros s s' H; rewrite Nat.sub_0_r; exact H.
    + intros s s' H; replace (i - 1 + S n)%nat with (S i - 1 + n)%nat by lia; exact H.
Qed.

Lemma rf03_loop_keeps (n : nat) : forall i line,
  keeps key03 (read_format_ft03_loop i n line).
Proof.
  induction n as [|n IH]; intros i line; simpl; [apply keeps_ret|].
  apply keeps_bind; [apply keeps_lift| intro a].
  apply keeps_get_put_bind; [reflexivity|].
  apply keeps_bind; [apply keeps_lift| intro b].
  apply keeps_get_put_bind; [reflexivity| apply IH].
Qed.

Lemma read_format_ft03_rel (line : string) (beg end_ : nat) :
  (1 <= beg)%nat -> (beg <= end_ + 1)%nat ->
  rel_M (AXV (beg - 1)) (AXV end_) (read_format_ft03 line beg end_).
Proof.
  intros H1 H2; unfold read_format_ft03.
  eapply rel_bind; [apply rel_lift| intro iyr].
  eapply rel_bind; [| intro; apply rel_ret].
  eapply rel_weaken; [| |apply rf03_loop_rel; exact H1]; [tauto|].
  intros s s' H; replace end_ with (beg - 1 + (end_ + 1 - beg))%nat by lia; exact H.
Qed.

Lemma read_format_ft03_keeps (line : string) (beg end_ : nat) :
  keeps key03 (read_format_ft03 line beg end_).
Proof.
  unfold read_format_ft03; apply keeps_bind; [apply keeps_lift| intro].
  apply keeps_bind; [apply rf03_loop_keeps| intro; apply keeps_ret].
Qed.

Lemma agree_0 (f : TideConstitType -> nat -> R) (s s' : TideConstitType) :
  agree f 0 s s'.
Proof. intros j Hj; lia. Qed.

(** One step of the line loops: read a line (raising on end of file), then
    run [c] on it. *)
Local Ltac rel_line :=
  match goal with
  | |- context [readline ?fp] =>
      let l := fresh "line" in let r := fresh "fp" in
      destruct (readline fp) as [l r]
  end;
  match goal with
  | |- context [String.eqb ?l EmptyString] => destruct (String.eqb l EmptyString)
  end; [apply rel_raise|].

Lemma read_ft03_rest_rel (fp : list string) :
  rel_M (AXV 8) (AXV NUMT)
    (read_ft03_rest [(9, 16); (17, 24); (25, 32); (33, NUMT)]%nat fp).
Proof.
  cbn [read_ft03_rest].
  rel_line; eapply rel_bind; [apply (read_format_ft03_rel _ 9 16); lia| intros _].
  rel_line; eapply rel_bind; [apply (read_format_ft03_rel _ 17 24); lia| intros _].
  rel_line; eapply rel_bind; [apply (read_format_ft03_rel _ 25 32); lia| intros _].
  rel_line; eapply rel_bind; [apply (read_format_ft03_rel _ 33 NUMT); unfold NUMT; lia|].
  intros _; apply rel_ret.
Qed.

Lemma read_ft03_rest_keeps (rs : list (nat * nat)) (fp : list string) :
  keeps key03 (read_ft03_rest rs fp).
Proof.
  revert fp; induction rs as [|[b e] rs IH]; intro fp; simpl; [apply keeps_ret|].
  destruct (readline fp) as [l r]; destruct (String.eqb l EmptyString);
    [apply keeps_raise|].
  apply keeps_bind; [apply read_format_ft03_keeps| intros _; apply IH].
Qed.

(** Whatever the state, [read_ft03] has the same outcome, and two successful
    runs leave [xode] and [vpu] equal on all [NUMT] cells. *)
Lemma read_ft03_rel (ft03 : list string) (iyear : Z) :
  rel_M (fun _ _ => True) (AXV NUMT) (read_ft03 ft03 iyear).
Proof.
  unfold read_ft03; destruct (readline ft03) as [line fp].
  eapply rel_bind; [apply rel_lift| intro iyr1].
  destruct (iyear <? iyr1)%Z; [apply rel_raise|].
  destruct (if (iyear =? iyr1)%Z then _ else _) as [line' fp'].
  eapply rel_bind.
  { eapply rel_weaken; [| |apply (read_format_ft03_rel _ 1 8); lia].
    - intros; split; apply agree_0.
    - intros s s' H; exact H. }
  intro iyr; destruct (negb _); [apply rel_raise|].
  eapply rel_bind; [apply read_ft03_rest_rel| intros _; apply rel_ret].
Qed.

Lemma read_ft03_keeps (ft03 : list string) (iyear : Z) :
  keeps key03 (read_ft03 ft03 iyear).
Proof.
  unfold read_ft03; destruct (readline ft03) as [line fp].
  apply keeps_bind; [apply keeps_lift| intro iyr1].
  destruct (iyear <? iyr1)%Z; [apply keeps_raise|].
  destruct (if (iyear =? iyr1)%Z then _ else _) as [line' fp'].
  apply keeps_bind; [apply read_format_ft03_keeps| intro iyr].
  destruct (negb _); [apply keeps_raise|].
  apply keeps_bind; [apply read_ft03_rest_keeps| intros _; apply keeps_ret].
Qed.

Lemma read_ang_ft07_rel (n : nat) : forall i line, (1 <= i)%nat ->
  rel_M (agree ang (i - 1)) (agree ang (i - 1 + n)) (read_ang_ft07 i n line).
Proof.
  induction n as [|n IH]; intros i line Hi; simpl.
  - rewrite Nat.add_0_r; apply rel_ret.
  - eapply rel_bind; [apply rel_lift| intro a].
    apply rel_get_put_bind with (Q := agree ang i).
    { intros s s' H; simpl; intros j Hj; apply (agree_upd ang (i - 1) s s'); auto; lia. }
    eapply rel_weaken; [| |apply (IH (S i)); lia].
    + simpl; intros s s' H; rewrite Nat.sub_0_r; exact H.
    + intros s s' H; replace (i - 1 + S n)%nat with (S i - 1 + n)%nat by lia; exact H.
Qed.

Lemma read_ang_ft07_keeps (n : nat) : forall i line,
  keeps key07 (read_ang_ft07 i n line).
Proof.
  induction n as [|n IH]; intros i line; simpl; [apply keeps_ret|].
  apply keeps_bind; [apply keeps_lift| intro a].
  apply keeps_get_put_bind; [reflexivity| apply IH].
Qed.

Definition AE07 (k : nat) (s s' : TideConstitType) : Prop :=
  agree ang NUMT s s' /\ agree amp k s s' /\ agree epoc k s s'.

Lemma read_amp_epoc_loop_rel (n : nat) : forall i line, (1 <= i)%nat ->
  rel_M (AE07 (i - 1)) (AE07 (i - 1 + n)) (read_amp_epoc_loop i n line).
Proof.
  induction n as [|n IH]; intros i line Hi; simpl.
  - rewrite Nat.add_0_r; apply rel_ret.
  - eapply rel_bind; [apply rel_lift| intro a].
    apply rel_get_put_bind with (Q := fun s s' =>
      agree ang NUMT s s' /\ agree amp i s s' /\ agree epoc (i - 1) s s').
    { intros s s' (Ha & Hm & He); split; [exact Ha|]; split; [|exact He]; simpl.
      intros j Hj; apply (agree_upd amp (i - 1) s s'); auto; lia. }
    eapply rel_bind; [apply rel_lift| intro b].
    apply rel_get_put_bind with (Q := AE07 i).
    { intros s s' (Ha & Hm & He); split; [exact Ha|]; split; [exact Hm|]; simpl.
      intros j Hj; apply (agree_upd epoc (i - 1) s s'); auto; lia. }
    eapply rel_weaken; [| |apply (IH (S i)); lia].
    + simpl; intros s s' H; rewrite Nat.sub_0_r; exact H.
    + intros s s' H; replace (i - 1 + S n)%nat with (S i - 1 + n)%nat by lia; exact H.
Qed.

Lemma read_amp_epoc_loop_keeps (n : nat) : forall i line,
  keeps key07 (read_amp_epoc_loop i n line).
Proof.
  induction n as [|n IH]; intros i line; simpl; [apply keeps_ret|].
  apply keeps_bind; [apply keeps_lift| intro a].
  apply keeps_get_put_bind; [reflexivity|].
  apply keeps_bind; [apply keeps_lift| intro b].
  apply keeps_get_put_bind; [reflexivity| apply IH].
Qed.

Lemma readline_nonempty_rel {S} (P : S -> S -> Prop) (fp : list string) :
  rel_M P P (readline_nonempty fp).
Proof.
  unfold readline_nonempty; destruct (readline fp) as [l r].
  destruct (String.eqb l EmptyString); [apply rel_raise| apply rel_ret].
Qed.

Lemma readline_nonempty_keeps {S K} (key : S -> K) (fp : list string) :
  keeps key (readline_nonempty fp).
Proof.
  unfold readline_nonempty; destruct (readline fp) as [l r].
  destruct (String.eqb l EmptyString); [apply keeps_raise| apply keeps_ret].
Qed.

Lemma read_ft07_skip_rel {S} (P : S -> S -> Prop) (n : nat) :
  forall fp, rel_M P P (read_ft07_skip n fp).
Proof.
  induction n as [|n IH]; intro fp; simpl; [apply rel_ret|].
  eapply rel_bind; [apply readline_nonempty_rel| intro; apply IH].
Qed.

Lemma read_ft07_skip_keeps {S K} (key : S -> K) (n : nat) :
  forall fp, keeps key (read_ft07_skip n fp).
Proof.
  induction n as [|n IH]; intro fp; simpl; [apply keeps_ret|].
  apply keeps_bind; [apply readline_nonempty_keeps| intro; apply IH].
Qed.

(** Whatever the state, [read_ft07] has the same outcome, and two successful
    runs leave [ang], [amp] and [epoc] equal on all [NUMT] cells. *)
Lemma read_ft07_rel (ft07 : list string) (nsta_ : Z) :
  rel_M (fun _ _ => True) (AAE NUMT) (read_ft07 ft07 nsta_).
Proof.
  unfold read_ft07; cbn [read_ft07_angles].
  eapply rel_bind with (Q := agree ang NUMT).
  { eapply rel_weaken with (P := agree ang 0); [intros; apply agree_0| intros s s' H; exact H|].
    eapply rel_bind; [apply readline_nonempty_rel| intro lf].
    eapply rel_bind; [apply (read_ang_ft07_rel 7 1); lia| intros _].
    eapply rel_bind; [apply readline_nonempty_rel| clear lf; intro lf].
    eapply rel_bind; [apply (read_ang_ft07_rel 7 8); lia| intros _].
    eapply rel_bind; [apply readline_nonempty_rel| clear lf; intro lf].
    eapply rel_bind; [apply (read_ang_ft07_rel 7 15); lia| intros _].
    eapply rel_bind; [apply readline_nonempty_rel| clear lf; intro lf].
    eapply rel_bind; [apply (read_ang_ft07_rel 7 22); lia| intros _].
    eapply rel_bind; [apply readline_nonempty_rel| clear lf; intro lf].
    eapply rel_bind; [apply (read_ang_ft07_rel 7 29); lia| intros _].
    eapply rel_bind; [apply readline_nonempty_rel| clear lf; intro lf].
    eapply rel_bind; [apply (read_ang_ft07_rel 2 36); lia| intros _].
    apply rel_ret. }
  intro fp; eapply rel_bind; [apply read_ft07_skip_rel| clear fp; intro fp].
  eapply rel_bind; [apply readline_nonempty_rel| intro lf].
  eapply rel_bind; [apply rel_lift| intro id].
  destruct (negb _); [apply rel_raise|].
  eapply rel_bind; [apply readline_nonempty_rel| clear lf; intro lf].
  eapply rel_bind; [apply rel_lift| intro m].
  eapply rel_bind with (Q := AE07 NUMT); [| intros _;
    eapply rel_weaken with (P := AE07 NUMT) (Q := AE07 NUMT);
    [intros s s' H; exact H| intros s s' (Ha & Hm & He); split; [exact Ha| split; assumption]|
     apply rel_ret]].
  eapply rel_weaken with (P := AE07 0);
    [intros s s' H; split; [exact H| split; apply agree_0]| intros s s' H; exact H|].
  cbn [read_ft07_consts].
  eapply rel_bind; [apply readline_nonempty_rel| clear lf; intro lf].
  eapply rel_bind; [apply (read_amp_epoc_loop_rel 7 1); lia| intros _].
  eapply rel_bind; [apply readline_nonempty_rel| clear lf; intro lf].
  eapply rel_bind; [apply (read_amp_epoc_loop_rel 7 8); lia| intros _].
  eapply rel_bind; [apply readline_nonempty_rel| clear lf; intro lf].
  eapply rel_bind; [apply (read_amp_epoc_loop_rel 7 15); lia| intros _].
  eapply rel_bind; [apply readline_nonempty_rel| clear lf; intro lf].
  eapply rel_bind; [apply (read_amp_epoc_loop_rel 7 22); lia| intros _].
  eapply rel_bind; [apply readline_nonempty_rel| clear lf; intro lf].
  eapply rel_bind; [apply (read_amp_epoc_loop_rel 7 29); lia| intros _].
  eapply rel_bind; [apply readline_nonempty_rel| clear lf; intro lf].
  eapply rel_bind; [apply (read_amp_epoc_loop_rel 2 36); lia| intros _].
  apply rel_ret.
Qed.

Lemma read_ft07_consts_keeps (rs : list (nat * nat)) (fp : list string) :
  keeps key07 (read_ft07_consts rs fp).
Proof.
  revert fp; induction rs as [|[b e] rs IH]; intro fp; simpl; [apply keeps_ret|].
  apply keeps_bind; [apply readline_nonempty_keeps| intro lf].
  apply keeps_bind; [apply read_amp_epoc_loop_keeps| intros _; apply IH].
Qed.

Lemma read_ft07_angles_keeps (n : nat) : forall i fp,
  keeps key07 (read_ft07_angles i n fp).
Proof.
  induction n as [|n IH]; intros i fp; simpl; [apply keeps_ret|].
  apply keeps_bind; [apply readline_nonempty_keeps| intro lf].
  apply keeps_bind; [apply read_ang_ft07_keeps| intros _; apply IH].
Qed.

Lemma read_ft07_keeps (ft07 : list string) (nsta_ : Z) :
  keeps key07 (read_ft07 ft07 nsta_).
Proof.
  unfold read_ft07.
  apply keeps_bind; [apply read_ft07_angles_keeps| intro fp].
  apply keeps_bind; [apply read_ft07_skip_keeps| clear fp; intro fp].
  apply keeps_bind; [apply readline_nonempty_keeps| intro lf].
  apply keeps_bind; [apply keeps_lift| intro id].
  destruct (negb _); [apply keeps_raise|].
  apply keeps_bind; [apply readline_nonempty_keeps| clear lf; intro lf].
  apply keeps_bind; [apply keeps_lift| intro m].
  apply keeps_bind; [apply read_ft07_consts_keeps| intros _; apply keeps_ret].
Qed.

(** [tide_hours] reads [nsta], [year] and the [NUMT] cells of the arrays
    only. *)
Lemma tide_hours_congr (tc tc' : TideConstitType) (initHour z0 : R)
    (seasonal : bool) (n : Z) (delt : R) :
  nsta tc = nsta tc' -> year tc = year tc' ->
  AXV NUMT tc tc' -> AAE NUMT tc tc' ->
  tide_hours tc initHour z0 seasonal n delt = tide_hours tc' initHour z0 seasonal n delt.
Proof.
  intros Hn Hy [Hx Hv] (Ha & Hm & He).
  assert (Hrow : forall t, eqn_row tc t = eqn_row tc' t).
  { intro t; unfold eqn_row; apply map_ext_in; intros i Hi.
    apply in_seq in Hi.
    rewrite (Hx i), (Hv i), (Ha i), (Hm i), (He i) by lia; reflexivity. }
  unfold tide_hours, tc_invalid; rewrite Hn, Hy.
  destruct (_ || _); [reflexivity|]; destruct (n <? 0)%Z; [reflexivity|].
  destruct seasonal; f_equal; apply map_ext; intro t; rewrite Hrow; reflexivity.
Qed.

(** ** The load step of the driver *)

Lemma Req_b_refl (x : R) : Req_b x x = true.
Proof. unfold Req_b; destruct (Req_EM_T x x); congruence. Qed.

Lemma str_lower_hourly : String.eqb (str_lower "hourly") "hourly" = true.
Proof. reflexivity. Qed.

(** A load for a new year and a new station reads both files. *)
Lemma LoadConstit_fresh (ft03 ft07 : list string) (y s : Z) (tc : TideConstitType) :
  year tc <> y -> nsta tc <> s ->
  LoadConstit ft03 ft07 y s tc =
  match read_ft03 ft03 y (set_year tc y) with
  | (Ok _, s1) =>
      match read_ft07 ft07 s (set_nsta s1 s) with
      | (Ok m, s2) => (Ok true, set_mllw s2 m)
      | (Exc e, s2) => (Exc e, s2)
      | (Running, s2) => (Running, s2)
      end
  | (Exc e, s1) => (Exc e, s1)
  | (Running, s1) => (Running, s1)
  end.
Proof.
  intros Hy Hs; unfold LoadConstit.
  cbv beta iota delta [bind get put ret].
  rewrite (proj2 (Z.eqb_neq _ _) Hy); cbv beta iota delta [negb].
  pose proof (read_ft03_keeps ft03 y (set_year tc y)) as Hk.
  destruct (read_ft03 ft03 y (set_year tc y)) as [[b| e |] s1]; try reflexivity.
  injection Hk as _ Hn _ _ _ _; cbn [nsta set_year] in Hn.
  rewrite Hn, (proj2 (Z.eqb_neq _ _) Hs); cbv beta iota delta [negb].
  destruct (read_ft07 ft07 s (set_nsta s1 s)) as [[m| e |] s2]; reflexivity.
Qed.

(** A load for a new year at the cached station reads the yearly file
    only. *)
Lemma LoadConstit_new_year (ft03 ft07 : list string) (y s : Z) (tc : TideConstitType) :
  year tc <> y -> nsta tc = s ->
  LoadConstit ft03 ft07 y s tc =
  match read_ft03 ft03 y (set_year tc y) with
  | (Ok _, s1) => (Ok true, s1)
  | (Exc e, s1) => (Exc e, s1)
  | (Running, s1) => (Running, s1)
  end.
Proof.
  intros Hy Hs; unfold LoadConstit.
  cbv beta iota delta [bind get put ret].
  rewrite (proj2 (Z.eqb_neq _ _) Hy); cbv beta iota delta [negb].
  pose proof (read_ft03_keeps ft03 y (set_year tc y)) as Hk.
  destruct (read_ft03 ft03 y (set_year tc y)) as [[b| e |] s1]; try reflexivity.
  injection Hk as _ Hn _ _ _ _; cbn [nsta set_year] in Hn.
  rewrite Hn, Hs, Z.eqb_refl; reflexivity.
Qed.

(** * Claim C3 *)

(** C3: an hourly primary request for [4] hours from hour [8759] of 2023
    (the last hour of that year) gives the one value of the request for
    hour [8759] of 2023 followed by the three values of the request for
    hours [0..2] of 2024: the chunk that crosses the year boundary reloads
    the yearly arrays and agrees with a fresh load for 2024. Failures of
    either load surface the same way on both sides. *)
Theorem TideC_stn_year_boundary (fuel : nat) (station : Z) (initHeight : R)
    (ft03 ft07 ft08 : list string) (seasonal add_mllw : bool) :
  TideC_stn fuel "hourly" station (Some (2023%Z, 8759%Z)) 4 initHeight ft03 ft07 ft08
    seasonal false add_mllw 1 =
  (a <-? TideC_stn fuel "hourly" station (Some (2023%Z, 8759%Z)) 1 initHeight ft03 ft07 ft08
           seasonal false add_mllw 1 ;;
   b <-? TideC_stn fuel "hourly" station (Some (2024%Z, 0%Z)) 3 initHeight ft03 ft07 ft08
           seasonal false add_mllw 1 ;;
   Ok (a ++ b)).
Proof.
  unfold TideC_stn; rewrite str_lower_hourly, Req_b_refl.
  cbn -[LoadConstit read_ft03 read_ft07 tide_hours].
  destruct (station =? -1)%Z eqn:Hs; [reflexivity|]; apply Z.eqb_neq in Hs.
  rewrite !LoadConstit_fresh by (cbn; congruence || discriminate).
  pose proof (read_ft03_keeps ft03 2023 (set_year TideConstitType_default 2023)) as K1.
  destruct (read_ft03 ft03 2023 (set_year TideConstitType_default 2023)) as [[b1| e |] s1] eqn:E1;
    try reflexivity.
  pose proof (read_ft07_keeps ft07 station (set_nsta s1 station)) as K2.
  destruct (read_ft07 ft07 station (set_nsta s1 station)) as [[m| e |] s2] eqn:E2;
    try reflexivity.
  cbn -[LoadConstit read_ft03 read_ft07 tide_hours].
  cbn in K1, K2.
  injection K1 as Hm1 Hn1 Hy1 Ha1 Hp1 He1.
  injection K2 as Hm2 Hn2 Hy2 Hx2 Hv2.
  destruct (tide_hours (set_mllw s2 m) 8759 _ seasonal 1 1) as [a| e |]; try reflexivity.
  cbn -[LoadConstit read_ft03 read_ft07 tide_hours].
  change (PosDef.Pos.to_nat 3) with 3%nat.
  cbn -[LoadConstit read_ft03 read_ft07 tide_hours].
  rewrite LoadConstit_new_year by (cbn; congruence).
  destruct (read_ft03_rel ft03 2024 (set_year (set_mllw s2 m) 2024)
              (set_year TideConstitType_default 2024) I) as [F3 A3].
  pose proof (read_ft03_keeps ft03 2024 (set_year (set_mllw s2 m) 2024)) as K3.
  pose proof (read_ft03_keeps ft03 2024 (set_year TideConstitType_default 2024)) as K3'.
  destruct (read_ft03 ft03 2024 (set_year (set_mllw s2 m) 2024)) as [o3 s3] eqn:E3.
  destruct (read_ft03 ft03 2024 (set_year TideConstitType_default 2024)) as [o3' s3'] eqn:E3'.
  cbn in F3, A3; subst o3'.
  destruct o3 as [b3| e |]; try reflexivity.
  specialize (A3 b3 eq_refl).
  destruct (read_ft07_rel ft07 station (set_nsta s1 station) (set_nsta s3' station) I) as [F4 A4].
  pose proof (read_ft07_keeps ft07 station (set_nsta s3' station)) as K4.
  rewrite E2 in F4, A4.
  destruct (read_ft07 ft07 station (set_nsta s3' station)) as [o4 s4] eqn:E4.
  cbn in F4, A4, K3, K3', K4; subst o4.
  specialize (A4 m eq_refl).
  injection K3 as Hm3 Hn3 Hy3 Ha3 Hp3 He3.
  injection K3' as Hm3' Hn3' Hy3' Ha3' Hp3' He3'.
  injection K4 as Hm4 Hn4 Hy4 Hx4 Hv4.
  cbn -[tide_hours].
  rewrite (tide_hours_congr s3 (set_mllw s4 m)); [reflexivity| cbn; congruence| cbn; congruence| |].
  - destruct A3 as [Ax Av]; split; intros j Hj; cbn;
      [rewrite Hx4; apply Ax| rewrite Hv4; apply Av]; exact Hj.
  - destruct A4 as (Aa & Ap & Ae); split; [|split]; intros j Hj; cbn;
      [rewrite Ha3| rewrite Hp3| rewrite He3]; auto.
Qed.

(** ** Hourly series split into consecutive pieces *)

Lemma map_seq_shift {A} (len : nat) : forall (f : nat -> A) start,
  map f (seq start len) = map (fun k => f (start + k)%nat) (seq 0 len).
Proof.
  induction len as [|len IH]; intros f start; [reflexivity|].
  cbn [seq map]; rewrite Nat.add_0_r; f_equal.
  rewrite (IH f (S start)), (IH _ 1%nat); apply map_ext; intro k; f_equal; lia.
Qed.

(** [tide_hours] over [p + q] unit steps is its run over [p] steps
    followed by its run over [q] steps from [initHour + p]. *)
Lemma tide_hours_app (tc : TideConstitType) (x z0 : R) (s : bool) (p q : Z) :
  (0 <= p)%Z -> (0 <= q)%Z ->
  tide_hours tc x z0 s (p + q) 1 =
  (a <-? tide_hours tc x z0 s p 1 ;;
   b <-? tide_hours tc (x + IZR p) z0 s q 1 ;; Ok (a ++ b)).
Proof.
  intros Hp Hq; unfold tide_hours.
  destruct (tc_invalid tc); [reflexivity|].
  rewrite !(proj2 (Z.ltb_ge _ _)) by lia.
  rewrite Z2Nat.inj_add, seq_app, map_app by lia.
  rewrite (map_seq_shift (Z.to_nat q)).
  assert (Hts : map (fun k => x + INR (0 + Z.to_nat p + k) * 1) (seq 0 (Z.to_nat q))
              = map (fun k => x + IZR p + INR k * 1) (seq 0 (Z.to_nat q))).
  { apply map_ext; intro k.
    rewrite Nat.add_0_l, plus_INR, INR_IZR_INZ, Z2Nat.id by lia; ring. }
  rewrite Hts; destruct s; cbn [obind]; rewrite map_app; reflexivity.
Qed.

Lemma chunk_loop_done (fuel : nat) (station : Z) (ft03 ft07 ft08 : list string)
    (s sec : bool) (delt : R) (k : nat) (tt : TideType) (y T i n : Z) (z : R)
    (data : list R) :
  (n <= 0)%Z ->
  chunk_loop fuel station ft03 ft07 ft08 s sec delt k tt y T i n z data = Ok data.
Proof.
  intro Hn; destruct k; cbn [chunk_loop]; rewrite (proj2 (Z.ltb_ge _ _)) by lia;
    reflexivity.
Qed.

(** Within the year, the day chunks of a primary station concatenate to
    one [tide_hours] run. *)
Lemma chunk_loop_in_year (fuel : nat) (station : Z) (ft03 ft07 ft08 : list string)
    (s : bool) (k : nat) : forall tt y T i n z data,
  (0 < n)%Z -> (i + n <= T)%Z -> (Z.to_nat n <= k)%nat ->
  chunk_loop fuel station ft03 ft07 ft08 s false 1 k tt y T i n z data =
  (zs <-? tide_hours (tt_tc tt) (IZR i) z s n 1 ;; Ok (data ++ zs)).
Proof.
  induction k as [|k IH]; intros tt y T i n z data Hn Hin Hk; [lia|].
  cbn [chunk_loop]; rewrite (proj2 (Z.ltb_lt _ _) Hn).
  rewrite (proj2 (Z.leb_gt _ _)) by lia; cbn [obind].
  unfold series; cbn [negb].
  destruct (n >? 24)%Z eqn:H24.
  - apply Z.gtb_lt in H24.
    cbv beta iota.
    replace (tide_hours (tt_tc tt) (IZR i) z s n 1)
      with (tide_hours (tt_tc tt) (IZR i) z s (24 + (n - 24)) 1) by (f_equal; lia).
    rewrite tide_hours_app by lia.
    destruct (tide_hours (tt_tc tt) (IZR i) z s 24 1) as [a| e |]; cbn [obind];
      [| reflexivity| reflexivity].
    rewrite IH by lia; rewrite plus_IZR.
    destruct (tide_hours (tt_tc tt) (IZR i + IZR 24) z s (n - 24) 1); cbn [obind];
      [rewrite app_assoc|..]; reflexivity.
  - destruct (tide_hours (tt_tc tt) (IZR i) z s n 1); cbn [obind]; [|reflexivity..].
    apply chunk_loop_done; rewrite Z.gtb_ltb, Z.ltb_ge in H24; lia.
Qed.

(** * Claim C5 *)

(** C5 counterexample: hours [0 .. 8769] of the leap year 2024 lie within
    its [366 * 24] hours, yet [TideC_stn] does not delegate them directly:
    its gate is [numHour + initHour < 365 * 24] for every year, so the
    request runs the day-chunk path, first up to the end of day 0 and then
    one day at a time. *)
Lemma hourly_gate_not_leap_aware :
  (0 + 8770 <= totHour_of 2024)%Z /\ (8770 + 0 <? 365 * 24)%Z = false /\
  forall fuel station ft03 ft07 ft08 s sec delt tt z,
    hourly fuel station ft03 ft07 ft08 s sec delt tt 2024 0 8770 z =
    (zhr <-? series fuel s sec delt tt 0 z 24 ;;
     chunk_loop fuel station ft03 ft07 ft08 s sec delt (Z.to_nat 8746) tt 2024 (366 * 24)
       24 8746 z zhr).
Proof.
  split; [cbn; lia| split; [reflexivity|]].
  intros; reflexivity.
Qed.

(** C5 (amended): the direct delegation is gated by
    [initHour + numHour < 365 * 24] whatever the year, and otherwise the
    request runs in day chunks, with the leap rule used only to find the
    year boundary. For a primary station with unit step, a request that
    stays within the Gregorian length of its year gives, on either path,
    exactly the direct series [tide_hours] from [initHour]. *)
Theorem hourly_within_year (fuel : nat) (station : Z) (ft03 ft07 ft08 : list string)
    (s : bool) (tt : TideType) (y h n : Z) (z : R) :
  (0 <= h)%Z -> (0 < n)%Z -> (h + n <= totHour_of y)%Z ->
  hourly fuel station ft03 ft07 ft08 s false 1 tt y h n z
  = series fuel s false 1 tt h z n.
Proof.
  intros Hh Hn Hy; unfold hourly.
  destruct (n + h <? 365 * 24)%Z; [reflexivity|]; cbv zeta.
  pose proof (Z.mod_pos_bound h 24 ltac:(lia)) as Hm.
  remember (if (24 - h mod 24 >? n)%Z then n else (24 - h mod 24)%Z) as e eqn:He.
  assert (Hb : (0 < e <= n)%Z).
  { destruct (24 - h mod 24 >? n)%Z eqn:G; subst e;
      [| rewrite Z.gtb_ltb, Z.ltb_ge in G]; lia. }
  unfold series; cbn [negb].
  assert (Hsplit : tide_hours (tt_tc tt) (IZR h) z s n 1
                   = tide_hours (tt_tc tt) (IZR h) z s (e + (n - e)) 1)
    by (f_equal; lia).
  rewrite Hsplit, tide_hours_app by lia.
  destruct (tide_hours (tt_tc tt) (IZR h) z s e 1) as [a| ex |] eqn:Ea; cbn [obind];
    [| reflexivity| reflexivity].
  destruct (Z.eq_dec e n) as [<-|Hne].
  - rewrite chunk_loop_done by lia.
    (* the first piece has succeeded, so [tt.tc] is valid *)
    assert (Hv : tc_invalid (tt_tc tt) = false).
    { unfold tide_hours in Ea; destruct (tc_invalid (tt_tc tt)); [discriminate|reflexivity]. }
    unfold tide_hours; rewrite Hv, Z.sub_diag.
    destruct s; cbn; rewrite app_nil_r; reflexivity.
  - rewrite chunk_loop_in_year by lia.
    rewrite plus_IZR.
    destruct (tide_hours (tt_tc tt) (IZR h + IZR e) z s (n - e) 1); reflexivity.
Qed.

Lemma hourly_within_year_witness :
  (0 <= 8700)%Z /\ (0 < 80)%Z /\ (8700 + 80 <= totHour_of 2024)%Z /\
  hourly O 1 [] [] [] true false 1 TideType_default 2024 8700 80 0
  = series O true false 1 TideType_default 8700 0 80.
Proof.
  split; [lia| split; [lia| split; [cbn; lia|]]].
  apply hourly_within_year; [lia| lia| cbn; lia].
Defined.

(** ** The tie-breaking loop of [tide_MaxMin] *)

Lemma tide_t_valid (tc : TideConstitType) (u z0 : R) (s : bool) :
  tc_invalid tc = false -> exists v, tide_t tc u z0 s = Ok v.
Proof.
  intro Hv; unfold tide_t; rewrite Hv; destruct s; eexists; reflexivity.
Qed.

Lemma grid_step (t : R) (j : nat) :
  t - INR (S j) * MAX_RES - MAX_RES = t - INR (S (S j)) * MAX_RES.
Proof. rewrite (S_INR (S j)); ring. Qed.

(** While every grid point [t - 0.05 k] has the height [z], the loop
    runs out of any bound. *)
Lemma tie_loop_stuck (tc : TideConstitType) (z0 : R) (s : bool) (t z : R) :
  (forall k, tide_t tc (t - INR (S k) * MAX_RES) z0 s = Ok z) ->
  forall fuel j z1, tide_t tc (t - INR (S j) * MAX_RES) z0 s = Ok z1 ->
  tie_loop fuel tc z0 s z (t - INR (S j) * MAX_RES) z1 = Running.
Proof.
  intros Hall fuel; induction fuel as [|fuel IH]; intros j z1 H1;
    rewrite Hall in H1; injection H1 as <-; cbn [tie_loop]; rewrite Req_b_refl;
    [reflexivity|].
  rewrite grid_step, Hall; cbn [obind].
  apply IH, Hall.
Qed.

(** A grid point [d] steps further left with another height ends the loop
    within [d] iterations. *)
Lemma tie_loop_exits (tc : TideConstitType) (z0 : R) (s : bool) (t z : R) :
  tc_invalid tc = false ->
  forall d j z1, tide_t tc (t - INR (S j) * MAX_RES) z0 s = Ok z1 ->
  tide_t tc (t - INR (S (j + d)) * MAX_RES) z0 s <> Ok z ->
  exists t1 z1', tie_loop d tc z0 s z (t - INR (S j) * MAX_RES) z1 = Ok (t1, z1')
                 /\ z1' <> z.
Proof.
  intros Hv d; induction d as [|d IH]; intros j z1 H1 Hd.
  - rewrite Nat.add_0_r, H1 in Hd.
    assert (Hne : z1 <> z) by congruence.
    cbn [tie_loop]; unfold Req_b; destruct (Req_EM_T z1 z) as [E|_]; [contradiction|].
    eauto.
  - cbn [tie_loop]; unfold Req_b; destruct (Req_EM_T z1 z) as [E|Hne]; [|eauto].
    rewrite grid_step.
    destruct (tide_t_valid tc (t - INR (S (S j)) * MAX_RES) z0 s Hv) as [z1' H1'].
    rewrite H1'; cbn [obind].
    apply (IH (S j)); [exact H1'|].
    replace (S j + d)%nat with (j + S d)%nat by lia; exact Hd.
Qed.

Lemma tide_t_flat (u : R) : tide_t tc_flat u 0 true = Ok 0.
Proof.
  unfold tide_t, tc_invalid, tc_flat; cbn -[cos PI].
  f_equal; unfold eqn_t, np_sum, np_empty; cbn -[cos PI]; ring.
Qed.

(** * Claim C10 *)

(** C10 counterexample: on the flat tide [tc_flat], a loaded set with all
    amplitudes zero, the heights at [t] and at every [t - 0.05 k] agree, so
    the [while z1 == z] loop of [tide_MaxMin] never exits: every bound on
    its iterations runs out. *)
Lemma tide_MaxMin_flat_diverges :
  tc_invalid tc_flat = false /\
  forall fuel, tide_MaxMin fuel tc_flat 0 0 true = Running.
Proof.
  split; [reflexivity|]; intro fuel.
  unfold tide_MaxMin; cbn [tc_invalid tc_flat nsta year Z.ltb Z.eqb orb].
  change (tc_invalid tc_flat) with false; cbv iota.
  rewrite !tide_t_flat; cbn [obind].
  replace (0 - MAX_RES) with (0 - INR 1 * MAX_RES) by (cbn; ring).
  rewrite (tie_loop_stuck tc_flat 0 true 0 0 (fun k => tide_t_flat _) fuel 0 0)
    by apply tide_t_flat.
  reflexivity.
Qed.

(** C10 (amended): for a loaded constituent set, the tie-breaking loop of
    [tide_MaxMin] exits iff some grid point [t - 0.05 k] ([k >= 1]) has a
    height other than the height at [t]: if none has, [tide_MaxMin] runs
    out of every bound on its loops (it does not terminate); if the point
    [k] has, the loop exits within [k - 1] iterations with a height
    different from the one at [t]. *)
Theorem tide_MaxMin_tie_break (tc : TideConstitType) (t z0 : R) (s : bool) :
  tc_invalid tc = false ->
  ((forall k, tide_t tc (t - INR (S k) * MAX_RES) z0 s = tide_t tc t z0 s) ->
   forall fuel, tide_MaxMin fuel tc t z0 s = Running)
  /\ (forall k z z1, tide_t tc t z0 s = Ok z ->
      tide_t tc (t - MAX_RES) z0 s = Ok z1 ->
      tide_t tc (t - INR (S k) * MAX_RES) z0 s <> Ok z ->
      exists t1 z1', tie_loop k tc z0 s z (t - MAX_RES) z1 = Ok (t1, z1')
                     /\ z1' <> z).
Proof.
  intro Hv.
  destruct (tide_t_valid tc t z0 s Hv) as [z Hz].
  assert (H1 : t - MAX_RES = t - INR 1 * MAX_RES) by (cbn; ring).
  split.
  - intros Hall fuel; rewrite Hz in Hall.
    unfold tide_MaxMin; rewrite Hv, Hz; cbn [obind].
    rewrite H1; destruct (tide_t_valid tc (t - INR 1 * MAX_RES) z0 s Hv) as [z1 Hz1].
    rewrite Hz1; cbn [obind].
    rewrite (tie_loop_stuck tc z0 s t z Hall fuel 0 z1 Hz1); reflexivity.
  - intros k z' z1 Hz' Hz1 Hk; rewrite H1 in Hz1 |- *.
    exact (tie_loop_exits tc z0 s t z' Hv k 0 z1 Hz1 Hk).
Qed.

Lemma tide_MaxMin_tie_break_witness :
  tc_invalid tc_flat = false /\
  ((forall k, tide_t tc_flat (0 - INR (S k) * MAX_RES) 0 true = tide_t tc_flat 0 0 true) ->
   forall fuel, tide_MaxMin fuel tc_flat 0 0 true = Running)
  /\ (forall k z z1, tide_t tc_flat 0 0 true = Ok z ->
      tide_t tc_flat (0 - MAX_RES) 0 true = Ok z1 ->
      tide_t tc_flat (0 - INR (S k) * MAX_RES) 0 true <> Ok z ->
      exists t1 z1', tie_loop k tc_flat 0 true z (0 - MAX_RES) z1 = Ok (t1, z1')
                     /\ z1' <> z).
Proof.
  split; [reflexivity|].
  apply tide_MaxMin_tie_break; reflexivity.
Defined.

(** ** The secondary transform *)

Lemma sec_guard_valid (st : SecondaryType) :
  sec_guard st = None -> tc_invalid (st_tc st) = false.
Proof.
  unfold sec_guard; destruct (secSta st <? 1)%Z; [discriminate|].
  destruct (tc_invalid (st_tc st)); [discriminate|reflexivity].
Qed.

(** With no time offsets the refinement stays at [locT]. *)
Lemma sec_refine_no_offset (st : SecondaryType) (locT z0 : R) (s : bool)
    (hMax hMin v : R) :
  maxTime st = 0%Z -> minTime st = 0%Z ->
  tide_t (st_tc st) locT z0 s = Ok v ->
  forall n, sec_refine n st locT z0 s hMax hMin locT v = Ok (locT, v).
Proof.
  intros HM Hm Hv n; induction n as [|n IH]; [reflexivity|].
  cbn [sec_refine]; rewrite HM, Hm.
  replace (locT - (IZR 0 * (hMax - v) + IZR 0 * (v - hMin)) / ((hMax - hMin) * 60))
    with locT by (unfold Rdiv; ring).
  rewrite Hv; exact IH.
Qed.

(** The final steps are the identity for unit scales, no additive terms
    and zero MLLW, when the bracket is not degenerate. *)
Lemma sec_locZ_identity (st : SecondaryType) (hMax hMin v : R) :
  mllw (st_tc st) = 0%Z -> maxAdj st = 1 -> minAdj st = 1 ->
  maxInc st = 0 -> minInc st = 0 -> hMax <> hMin ->
  sec_locZ st hMax hMin v = v.
Proof.
  intros Hz HA Ha HI Hi Hne; unfold sec_locZ.
  rewrite Hz, HA, Ha, HI, Hi.
  assert (hMax - hMin <> 0) by lra.
  field; assumption.
Qed.

(** ** A concrete bracket *)

(** The height of [tc_wave]. *)
Lemma tide_t_wave (u : R) : tide_t tc_wave u 0 true = Ok (cos (10 * u * PI)).
Proof.
  unfold tide_t; change (tc_invalid tc_wave) with false; cbv iota zeta.
  f_equal; unfold eqn_t, np_sum; cbn -[cos PI]; unfold np_empty.
  replace (PI / 180 * (1800 * u + 0 - 0)) with (10 * u * PI) by field.
  ring.
Qed.

(** Decisions of the float comparisons on known reals. *)
Lemma Rlt_b_true x y : x < y -> Rlt_b x y = true.
Proof. unfold Rlt_b; destruct (Rlt_dec x y); [reflexivity|contradiction]. Qed.
Lemma Rlt_b_false x y : ~ x < y -> Rlt_b x y = false.
Proof. unfold Rlt_b; destruct (Rlt_dec x y); [contradiction|reflexivity]. Qed.
Lemma Req_b_false x y : x <> y -> Req_b x y = false.
Proof. unfold Req_b; destruct (Req_EM_T x y); [contradiction|reflexivity]. Qed.

(** Heights of [tc_wave] on the grid points [tide_MaxMin] visits from [0]. *)
Lemma wave_values :
  cos (10 * 0 * PI) = 1 /\ cos (10 * (0 - MAX_RES) * PI) = 0 /\
  cos (10 * (0 - MAX_RES + - MAX_RES) * PI) = -1 /\
  cos (10 * (0 - MAX_RES + - MAX_RES + - MAX_RES) * PI) = 0 /\
  cos (10 * (0 + MAX_RES) * PI) = 0.
Proof.
  unfold MAX_RES; repeat split.
  - replace (10 * 0 * PI) with 0 by ring; apply cos_0.
  - replace (10 * (0 - 5 / 100) * PI) with (- (PI / 2)) by field.
    rewrite cos_neg; apply cos_PI2.
  - replace (10 * (0 - 5 / 100 + - (5 / 100)) * PI) with (- PI) by field.
    rewrite cos_neg; apply cos_PI.
  - replace (10 * (0 - 5 / 100 + - (5 / 100) + - (5 / 100)) * PI)
      with (- (PI / 2 + PI)) by field.
    rewrite cos_neg, neg_cos, cos_PI2; ring.
  - replace (10 * (0 + 5 / 100) * PI) with (PI / 2) by field; apply cos_PI2.
Qed.

(** Around [t = 0], [tide_MaxMin] brackets [tc_wave] by the high [1]
    and the low [-1]. *)
Lemma tide_MaxMin_wave :
  exists tMax tMin, tide_MaxMin 2 tc_wave 0 0 true = Ok (1, tMax, -1, tMin).
Proof.
  unfold tide_MaxMin; change (tc_invalid tc_wave) with false; cbv iota.
  destruct wave_values as (W0 & W1 & W2 & W3 & W4).
  rewrite !tide_t_wave, W0, W1; cbn [obind tie_loop].
  rewrite Req_b_false by lra; cbv iota; cbn [obind].
  rewrite Rlt_b_true by lra; cbn [walk].
  rewrite Rlt_b_true by lra; cbn [obind]; rewrite tide_t_wave, W2; cbn [obind walk].
  rewrite Rlt_b_true by lra; cbn [obind]; rewrite tide_t_wave, W3; cbn [obind walk].
  rewrite Rlt_b_false by lra; cbv iota; cbn [obind walk].
  rewrite Rlt_b_true by lra; cbn [obind]; rewrite tide_t_wave.
  rewrite W4; cbn [obind walk].
  rewrite Rlt_b_false by lra; cbv iota; cbn [obind].
  eexists; eexists; reflexivity.
Qed.

(** * Claim C8 *)

(** C8: for a loaded secondary station with no time offsets, unit
    amplitude scales, no additive terms and a reference station of zero
    MLLW, [secTide_t] at [locT] returns exactly [tide_t] of the reference
    station at [locT], whenever the bracket of [tide_MaxMin] around [locT]
    has different high and low heights. *)
Theorem secTide_t_identity (fuel : nat) (st : SecondaryType) (locT z0 : R)
    (s : bool) (hMax tMax hMin tMin : R) :
  sec_guard st = None ->
  maxTime st = 0%Z -> minTime st = 0%Z -> maxAdj st = 1 -> minAdj st = 1 ->
  maxInc st = 0 -> minInc st = 0 -> mllw (st_tc st) = 0%Z ->
  tide_MaxMin fuel (st_tc st) locT z0 s = Ok (hMax, tMax, hMin, tMin) ->
  hMax <> hMin ->
  secTide_t fuel st locT z0 s = tide_t (st_tc st) locT z0 s.
Proof.
  intros Hg HM Hm HA Ha HI Hi Hz Hb Hne.
  unfold secTide_t; rewrite Hg, HM, Hm.
  replace (locT - (IZR 0 + IZR 0) / 2 / 60) with locT by (cbn; field).
  destruct (tide_t_valid (st_tc st) locT z0 s (sec_guard_valid st Hg)) as [v Hv].
  rewrite Hv, Hb; cbn [obind].
  rewrite (sec_refine_no_offset st locT z0 s hMax hMin v HM Hm Hv 5); cbn [obind].
  rewrite sec_locZ_identity by assumption; reflexivity.
Qed.

Lemma secTide_t_identity_witness :
  exists tMax tMin,
    sec_guard st_wave = None /\ tide_MaxMin 2 (st_tc st_wave) 0 0 true = Ok (1, tMax, -1, tMin)
    /\ secTide_t 2 st_wave 0 0 true = tide_t (st_tc st_wave) 0 0 true.
Proof.
  destruct tide_MaxMin_wave as (tMax & tMin & H).
  exists tMax, tMin; split; [reflexivity| split; [exact H|]].
  apply (secTide_t_identity 2 st_wave 0 0 true 1 tMax (-1) tMin);
    try reflexivity; [exact H| lra].
Defined.

(** ** Exceptions of the secondary predictor *)


Lemma noexc_Ok {A} (a : A) : noexc (Ok a).
Proof. intros e; discriminate. Qed.

Lemma noexc_Running {A} : noexc (@Running A).
Proof. intros e; discriminate. Qed.

Lemma noexc_bind {A B} (c : outcome A) (k : A -> outcome B) :
  noexc c -> (forall a, noexc (k a)) -> noexc (obind c k).
Proof.
  intros Hc Hk e; destruct c as [a| e' |]; cbn [obind];
    [apply Hk| exfalso; exact (Hc e' eq_refl)| discriminate].
Qed.

Lemma noexc_tide_t (tc : TideConstitType) (u z0 : R) (s : bool) :
  tc_invalid tc = false -> noexc (tide_t tc u z0 s).
Proof.
  intro Hv; destruct (tide_t_valid tc u z0 s Hv) as [v ->]; apply noexc_Ok.
Qed.

Create HintDb noexc.
#[local] Hint Resolve noexc_Ok noexc_Running noexc_bind noexc_tide_t : noexc.

Ltac noexc_step :=
  repeat first [ apply noexc_bind; [eauto with noexc| intros ?]
               | match goal with p : _ * _ |- _ => destruct p end
               | progress cbv beta iota ];
  eauto with noexc.

Lemma noexc_tie_loop (tc : TideConstitType) (z0 : R) (s : bool) (z : R) :
  tc_invalid tc = false ->
  forall fuel t1 z1, noexc (tie_loop fuel tc z0 s z t1 z1).
Proof.
  intros Hv fuel; induction fuel as [|fuel IH]; intros t1 z1; cbn [tie_loop];
    destruct (Req_b z1 z); noexc_step.
Qed.

Lemma noexc_walk (tc : TideConstitType) (z0 : R) (s lt : bool) (dt : R) :
  tc_invalid tc = false ->
  forall fuel t1 z1 z2, noexc (walk fuel tc z0 s lt dt t1 z1 z2).
Proof.
  intros Hv fuel; induction fuel as [|fuel IH]; intros t1 z1 z2; cbn [walk];
    destruct (if lt then Rlt_b z1 z2 else Rlt_b z2 z1); noexc_step.
Qed.

#[local] Hint Resolve noexc_tie_loop noexc_walk : noexc.

Lemma noexc_tide_MaxMin (fuel : nat) (tc : TideConstitType) (t z0 : R) (s : bool) :
  tc_invalid tc = false -> noexc (tide_MaxMin fuel tc t z0 s).
Proof.
  intro Hv; unfold tide_MaxMin; rewrite Hv.
  apply noexc_bind; [auto with noexc| intro z].
  apply noexc_bind; [auto with noexc| intro z1].
  apply noexc_bind; [auto with noexc| intros [t1 z1']].
  destruct (Rlt_b z1' z); noexc_step.
Qed.

#[local] Hint Resolve noexc_tide_MaxMin : noexc.

Lemma noexc_sec_refine (st : SecondaryType) (locT z0 : R) (s : bool) (hMax hMin : R) :
  tc_invalid (st_tc st) = false ->
  forall n refT refZ, noexc (sec_refine n st locT z0 s hMax hMin refT refZ).
Proof.
  intros Hv n; induction n as [|n IH]; intros refT refZ; cbn [sec_refine]; noexc_step.
Qed.

#[local] Hint Resolve noexc_sec_refine : noexc.

Lemma noexc_sec_hours_loop (fuel : nat) (st : SecondaryType) (z0 : R) (s : bool)
    (delt : R) :
  tc_invalid (st_tc st) = false ->
  forall n locT refT br, noexc (sec_hours_loop n fuel st z0 s delt locT refT br).
Proof.
  intros Hv n; induction n as [|n IH]; intros locT refT br; cbn [sec_hours_loop];
    [apply noexc_Ok|].
  apply noexc_bind; [auto with noexc| intro refZ].
  apply noexc_bind.
  - destruct br as [[[a b] c] d]; destruct (Rlt_b b _ && Rlt_b d _); auto with noexc.
  - intros [[[hMax tMax] hMin] tMin]; noexc_step.
Qed.

(** * Claim C9 *)

(** C9: [secTide_t] and [secTide_hours] divide by [hMax - hMin] without
    any guard: the only exceptions they raise are the two initialisation
    guards, and for [secTide_hours] the [numpy] errors of a negative length
    and of the store into an empty array; no branch tests the bracket. *)
Theorem secTide_no_degenerate_guard (fuel : nat) (st : SecondaryType) (z0 : R)
    (s : bool) :
  (forall locT e, secTide_t fuel st locT z0 s = Exc e -> sec_guard st = Some e)
  /\ (forall initHour n delt e,
      secTide_hours fuel st initHour z0 s n delt = Exc e ->
      sec_guard st = Some e
      \/ ((n < 0)%Z /\ e = ValueError "negative dimensions are not allowed")
      \/ (n = 0%Z /\ e = IndexError "index 0 is out of bounds for axis 0 with size 0")).
Proof.
  split.
  - intros locT e; unfold secTide_t.
    destruct (sec_guard st) as [e'|] eqn:Hg; [congruence|].
    pose proof (sec_guard_valid st Hg) as Hv.
    assert (H : noexc (refZ <-? tide_t (st_tc st)
                         (locT - (IZR (maxTime st) + IZR (minTime st)) / 2 / 60) z0 s ;;
                       '(hMax, _, hMin, _) <-? tide_MaxMin fuel (st_tc st)
                         (locT - (IZR (maxTime st) + IZR (minTime st)) / 2 / 60) z0 s ;;
                       '(_, refZ) <-? sec_refine 5 st locT z0 s hMax hMin
                         (locT - (IZR (maxTime st) + IZR (minTime st)) / 2 / 60) refZ ;;
                       Ok (sec_locZ st hMax hMin refZ)))
      by noexc_step.
    intro He; exfalso; exact (H e He).
  - intros initHour n delt e; unfold secTide_hours.
    destruct (sec_guard st) as [e'|] eqn:Hg; [left; congruence|].
    pose proof (sec_guard_valid st Hg) as Hv.
    destruct (n <? 0)%Z eqn:Hn.
    { intro He; injection He as <-; right; left; split; [lia| reflexivity]. }
    set (refT0 := initHour - (IZR (maxTime st) + IZR (minTime st)) / 2 / 60).
    destruct (tide_t_valid (st_tc st) refT0 z0 s Hv) as [refZ HZ]; rewrite HZ;
      cbn [obind].
    destruct (tide_MaxMin fuel (st_tc st) refT0 z0 s) as [[[[hMax tMax] hMin] tMin]| e' |]
      eqn:Hb; cbn [obind]; [| intro He; injection He as <-;
                               exfalso; exact (noexc_tide_MaxMin _ _ _ _ _ Hv _ Hb)
                             | discriminate].
    destruct (sec_refine 5 st initHour z0 s hMax hMin refT0 refZ) as [[refT refZ']| e' |]
      eqn:Hr; cbn [obind]; [| intro He; injection He as <-;
                               exfalso; exact (noexc_sec_refine _ _ _ _ _ _ Hv _ _ _ _ Hr)
                             | discriminate].
    destruct (n =? 0)%Z eqn:H0.
    + intro He; injection He as <-; right; right; split; [lia| reflexivity].
    + destruct (sec_hours_loop _ _ _ _ _ _ _ _ _) eqn:Hl; cbn [obind];
        [discriminate| | discriminate].
      intro He; injection He as <-.
      exfalso; exact (noexc_sec_hours_loop _ _ _ _ _ Hv _ _ _ _ _ Hl).
Qed.

(** ** A loaded secondary station *)

Lemma load_wave_eq :
  LoadSecond ft03_wave ft07_wave ft08_wave 2023 5 SecondaryType_default = load_wave.
Proof. reflexivity. Qed.

Lemma tide_t_congr (tc tc' : TideConstitType) (u z0 : R) (s : bool) :
  nsta tc = nsta tc' -> year tc = year tc' ->
  AXV NUMT tc tc' -> AAE NUMT tc tc' ->
  tide_t tc u z0 s = tide_t tc' u z0 s.
Proof.
  intros Hn Hy [Hx Hv] (Ha & Hm & He).
  assert (Hrow : eqn_t tc u = eqn_t tc' u).
  { unfold eqn_t; apply map_ext_in; intros i Hi.
    apply in_seq in Hi.
    rewrite (Hx i), (Hv i), (Ha i), (Hm i), (He i) by (cbn in Hi |- *; lia); reflexivity. }
  unfold tide_t, tc_invalid; rewrite Hn, Hy, Hrow; reflexivity.
Qed.

Lemma st_loaded_tc : 
  nsta (st_tc st_loaded) = nsta tc_wave900 /\ year (st_tc st_loaded) = year tc_wave900 /\
  AXV NUMT (st_tc st_loaded) tc_wave900 /\ AAE NUMT (st_tc st_loaded) tc_wave900.
Proof.
  split; [reflexivity| split; [reflexivity|]].
  split; [split| split; [|split]]; intros j Hj; unfold NUMT in Hj;
    do 37 (destruct j as [|j]; [cbn -[IZR Rdiv Rmult Rplus Rminus Ropp Rinv]; unfold np_empty; first [reflexivity | field] |]); lia.
Qed.

(** The extrema search depends on the constituent set only through
    [tide_t] and the validity check. *)
Lemma tie_loop_congr (tc tc' : TideConstitType) (z0 : R) (s : bool) (z : R) :
  (forall u, tide_t tc u z0 s = tide_t tc' u z0 s) ->
  forall fuel t1 z1, tie_loop fuel tc z0 s z t1 z1 = tie_loop fuel tc' z0 s z t1 z1.
Proof.
  intros Ht fuel; induction fuel as [|fuel IH]; intros t1 z1; cbn [tie_loop];
    [reflexivity|].
  rewrite Ht; destruct (Req_b z1 z); [|reflexivity].
  destruct (tide_t tc' (t1 - MAX_RES) z0 s); cbn [obind]; auto.
Qed.

Lemma walk_congr (tc tc' : TideConstitType) (z0 : R) (s lt : bool) (dt : R) :
  (forall u, tide_t tc u z0 s = tide_t tc' u z0 s) ->
  forall fuel t1 z1 z2, walk fuel tc z0 s lt dt t1 z1 z2 = walk fuel tc' z0 s lt dt t1 z1 z2.
Proof.
  intros Ht fuel; induction fuel as [|fuel IH]; intros t1 z1 z2; cbn [walk];
    [reflexivity|].
  rewrite Ht; destruct (if lt then _ else _); [|reflexivity].
  destruct (tide_t tc' (t1 + dt) z0 s); cbn [obind]; auto.
Qed.

Lemma tide_MaxMin_congr (fuel : nat) (tc tc' : TideConstitType) (t z0 : R) (s : bool) :
  tc_invalid tc = tc_invalid tc' ->
  (forall u, tide_t tc u z0 s = tide_t tc' u z0 s) ->
  tide_MaxMin fuel tc t z0 s = tide_MaxMin fuel tc' t z0 s.
Proof.
  intros Hv Ht; unfold tide_MaxMin; rewrite Hv, !Ht.
  destruct (tc_invalid tc'); [reflexivity|].
  destruct (tide_t tc' t z0 s) as [z| |]; cbn [obind]; [|reflexivity..].
  destruct (tide_t tc' (t - MAX_RES) z0 s) as [z1| |]; cbn [obind]; [|reflexivity..].
  rewrite (tie_loop_congr tc tc' z0 s z Ht).
  destruct (tie_loop fuel tc' z0 s z (t - MAX_RES) z1) as [[t1 z1']| |]; cbn [obind];
    [|reflexivity..].
  destruct (Rlt_b z1' z); rewrite (walk_congr tc tc' z0 s _ _ Ht);
    (destruct (walk fuel tc' z0 s _ _ t1 z1' z) as [[[a b] c]| |]; cbn [obind];
      [rewrite (walk_congr tc tc' z0 s _ _ Ht)| |]; reflexivity).
Qed.

(** The reference series is [cos (5 pi t)], with period [0.4] hours, and
    its bracket around [0] is [(1, -1)]. *)
Lemma tide_t_wave900 (u z0 : R) :
  tide_t tc_wave900 u z0 true = Ok (z0 + cos (5 * u * PI)).
Proof.
  unfold tide_t; change (tc_invalid tc_wave900) with false; cbv iota zeta.
  f_equal; unfold eqn_t, np_sum; cbn -[cos PI]; unfold np_empty.
  replace (PI / 180 * (900 * u + 0 - 0)) with (5 * u * PI) by field.
  ring.
Qed.

Lemma cos_PI4_bounds : 0 < cos (PI / 4) < 1.
Proof.
  rewrite cos_PI4.
  assert (Hs : 0 < sqrt 2) by (apply sqrt_lt_R0; lra).
  assert (Hss : sqrt 2 * sqrt 2 = 2) by (apply sqrt_sqrt; lra).
  assert (H1 : 1 < sqrt 2) by nra.
  split; [apply Rdiv_lt_0_compat; lra|].
  apply (Rmult_lt_reg_r (sqrt 2)); [exact Hs|].
  unfold Rdiv; rewrite Rmult_assoc, Rinv_l by lra; lra.
Qed.

Lemma wave900_values :
  cos (5 * 0 * PI) = 1 /\
  cos (5 * (0 - MAX_RES) * PI) = cos (PI / 4) /\
  cos (5 * (0 - MAX_RES + - MAX_RES) * PI) = 0 /\
  cos (5 * (0 - MAX_RES + - MAX_RES + - MAX_RES) * PI) = - cos (PI / 4) /\
  cos (5 * (0 - MAX_RES + - MAX_RES + - MAX_RES + - MAX_RES) * PI) = -1 /\
  cos (5 * (0 - MAX_RES + - MAX_RES + - MAX_RES + - MAX_RES + - MAX_RES) * PI)
    = - cos (PI / 4) /\
  cos (5 * (0 + MAX_RES) * PI) = cos (PI / 4).
Proof.
  unfold MAX_RES; repeat split.
  - replace (5 * 0 * PI) with 0 by ring; apply cos_0.
  - replace (5 * (0 - 5 / 100) * PI) with (- (PI / 4)) by field; apply cos_neg.
  - replace (5 * (0 - 5 / 100 + - (5 / 100)) * PI) with (- (PI / 2)) by field.
    rewrite cos_neg; apply cos_PI2.
  - replace (5 * (0 - 5 / 100 + - (5 / 100) + - (5 / 100)) * PI)
      with (- (- (PI / 4) + PI)) by field.
    rewrite cos_neg, neg_cos, cos_neg; reflexivity.
  - replace (5 * (0 - 5 / 100 + - (5 / 100) + - (5 / 100) + - (5 / 100)) * PI)
      with (- PI) by field.
    rewrite cos_neg; apply cos_PI.
  - replace (5 * (0 - 5 / 100 + - (5 / 100) + - (5 / 100) + - (5 / 100) + - (5 / 100)) * PI)
      with (- (PI / 4 + PI)) by field.
    rewrite cos_neg, neg_cos; reflexivity.
  - replace (5 * (0 + 5 / 100) * PI) with (PI / 4) by field; reflexivity.
Qed.

Lemma tide_MaxMin_wave900 (z0 : R) :
  exists tMax tMin,
    tide_MaxMin 4 tc_wave900 0 z0 true = Ok (z0 + 1, tMax, z0 + -1, tMin).
Proof.
  destruct wave900_values as (W0 & W1 & W2 & W3 & W4 & W5 & W6).
  destruct cos_PI4_bounds as [C0 C1].
  unfold tide_MaxMin; change (tc_invalid tc_wave900) with false; cbv iota.
  rewrite !tide_t_wave900, W0, W1; cbn [obind tie_loop].
  rewrite Req_b_false by lra; cbv iota; cbn [obind].
  rewrite Rlt_b_true by lra; cbn [walk].
  rewrite Rlt_b_true by lra; cbn [obind]; rewrite tide_t_wave900, W2; cbn [obind walk].
  rewrite Rlt_b_true by lra; cbn [obind]; rewrite tide_t_wave900, W3; cbn [obind walk].
  rewrite Rlt_b_true by lra; cbn [obind]; rewrite tide_t_wave900, W4; cbn [obind walk].
  rewrite Rlt_b_true by lra; cbn [obind]; rewrite tide_t_wave900, W5; cbn [obind walk].
  rewrite Rlt_b_false by lra; cbv iota; cbn [obind walk].
  rewrite Rlt_b_true by lra; cbn [obind]; rewrite tide_t_wave900, W6; cbn [obind walk].
  rewrite Rlt_b_false by lra; cbv iota; cbn [obind].
  eexists; eexists; reflexivity.
Qed.

Lemma st_loaded_facts :
  sec_guard st_loaded = None /\ maxTime st_loaded = 0%Z /\ minTime st_loaded = 0%Z /\
  maxAdj st_loaded = 1 /\ minAdj st_loaded = 1 /\ maxInc st_loaded = 0 /\
  minInc st_loaded = 0 /\ mllw (st_tc st_loaded) = 500%Z /\
  tc_invalid (st_tc st_loaded) = false.
Proof.
  repeat split; try reflexivity; cbn -[IZR Rdiv Rmult Rplus Rminus Ropp Rinv]; field.
Qed.

Lemma tide_t_loaded (u z0 : R) :
  tide_t (st_tc st_loaded) u z0 true = Ok (z0 + cos (5 * u * PI)).
Proof.
  destruct st_loaded_tc as (Hn & Hy & Hxv & Hae).
  rewrite (tide_t_congr _ _ u z0 true Hn Hy Hxv Hae); apply tide_t_wave900.
Qed.

(** One hour of the secondary series from the baseline [z0]: the reference
    height [z0 + 1] plus the reference MLLW [0.5]. *)
Lemma secTide_hours_loaded (z0 : R) :
  secTide_hours 4 st_loaded 0 z0 true 1 1 = Ok [z0 + 1 + 1 / 2].
Proof.
  destruct st_loaded_facts as (Hg & HM & Hm & HA & Ha & HI & Hi & Hz & Hv).
  destruct wave900_values as (W0 & _).
  unfold secTide_hours; rewrite Hg, HM, Hm; cbv beta iota zeta.
  replace (0 - (IZR 0 + IZR 0) / 2 / 60) with 0 by (cbn; field).
  assert (H0 : tide_t (st_tc st_loaded) 0 z0 true = Ok (z0 + 1))
    by (rewrite tide_t_loaded, W0; reflexivity).
  rewrite H0; cbn [obind].
  rewrite (tide_MaxMin_congr 4 (st_tc st_loaded) tc_wave900 0 z0 true)
    by (reflexivity || (intro u; rewrite tide_t_loaded, tide_t_wave900; reflexivity)).
  destruct (tide_MaxMin_wave900 z0) as (tM & tm & HB); rewrite HB; cbn [obind].
  rewrite (sec_refine_no_offset st_loaded 0 z0 true (z0 + 1) (z0 + -1) (z0 + 1) HM Hm H0 5);
    cbn [obind Z.eqb Z.to_nat sec_hours_loop Nat.sub].
  change (PosDef.Pos.to_nat 1 - 1)%nat with 0%nat; change ((1 <? 0)%Z) with false;
  cbn [obind sec_hours_loop].
  f_equal; f_equal; unfold sec_locZ; rewrite HA, Ha, HI, Hi, Hz; field; lra.
Qed.

Lemma load_wave_ok :
  LoadSecond ft03_wave ft07_wave ft08_wave 2023 5 (tt_st TideType_default)
  = (Ok true, st_loaded).
Proof. exact load_wave_eq. Qed.

(** * Claim C4: the test files *)

(** The whole call on the test files, for both flags. *)
Lemma TideC_stn_secondary_wave (add_mllw : bool) :
  TideC_stn 4 "hourly" 5 (Some (2023%Z, 0%Z)) 1 0 ft03_wave ft07_wave ft08_wave
    true true add_mllw 1 =
  Ok [(if add_mllw then 0 else 0 - IZR 500 / 1000) + 1 + 1 / 2].
Proof.
  unfold TideC_stn; rewrite str_lower_hourly, Req_b_refl; cbn [negb andb].
  change ((5 =? -1)%Z) with false; change ((1800 <=? 2023)%Z) with true;
  change ((2023 <=? 2045)%Z) with true; cbv iota.
  unfold load_year; cbn [negb]; rewrite load_wave_ok; cbn [obind tt_st tt_tc negb].
  destruct st_loaded_facts as (_ & _ & _ & _ & _ & _ & _ & Hz & _).
  rewrite Hz; unfold hourly; change ((1 + 0 <? 365 * 24)%Z) with true; cbv iota.
  unfold series; cbn [negb tt_st]; apply secTide_hours_loaded.
Qed.


(** * Further properties of the module *)

(** ** Helper lemmas *)

Lemma tie_loop_spec (tc : TideConstitType) (z0 : R) (s : bool) (z : R) :
  forall fuel t1 z1 t1' z1',
  tide_t tc t1 z0 s = Ok z1 ->
  tie_loop fuel tc z0 s z t1 z1 = Ok (t1', z1') ->
  exists k, t1' = t1 - INR k * MAX_RES /\ tide_t tc t1' z0 s = Ok z1' /\ z1' <> z.
Proof.
  induction fuel as [|fuel IH]; intros t1 z1 t1' z1' Ht H; cbn [tie_loop] in H;
    unfold Req_b in H; destruct (Req_EM_T z1 z) as [Heq|Hne].
  - discriminate.
  - injection H as <- <-; exists 0%nat; split; [simpl; ring| auto].
  - destruct (tide_t tc (t1 - MAX_RES) z0 s) as [z2| |] eqn:E; cbn [obind] in H;
      try discriminate.
    destruct (IH _ _ _ _ E H) as (k & Hk & Hv & Hz).
    exists (S k); split; [rewrite Hk, S_INR; ring| auto].
  - injection H as <- <-; exists 0%nat; split; [simpl; ring| auto].
Qed.

(** A walk that takes at least one step ends [j + 1] steps away and returns
    the height one step back, which is at most (or at least) the first. *)
Lemma walk_spec (tc : TideConstitType) (z0 : R) (s lt : bool) (dt : R) :
  forall fuel t1 z1 z2 t1' z1' z2',
  (if lt then z1 < z2 else z2 < z1) ->
  tide_t tc t1 z0 s = Ok z1 ->
  walk fuel tc z0 s lt dt t1 z1 z2 = Ok (t1', z1', z2') ->
  exists j, t1' = t1 + INR (S j) * dt /\ tide_t tc (t1 + INR j * dt) z0 s = Ok z2'
    /\ (if lt then z2' <= z1 else z1 <= z2').
Proof.
  induction fuel as [|fuel IH]; intros t1 z1 z2 t1' z1' z2' Hc Ht H; cbn [walk] in H.
  - assert (Hb : (if lt then Rlt_b z1 z2 else Rlt_b z2 z1) = true)
      by (unfold Rlt_b; destruct lt; [destruct (Rlt_dec z1 z2)|destruct (Rlt_dec z2 z1)];
          auto; contradiction).
    rewrite Hb in H; discriminate.
  - assert (Hb : (if lt then Rlt_b z1 z2 else Rlt_b z2 z1) = true)
      by (unfold Rlt_b; destruct lt; [destruct (Rlt_dec z1 z2)|destruct (Rlt_dec z2 z1)];
          auto; contradiction).
    rewrite Hb in H.
    destruct (tide_t tc (t1 + dt) z0 s) as [z3| |] eqn:E; cbn [obind] in H;
      try discriminate.
    destruct (if lt then Rlt_b z3 z1 else Rlt_b z1 z3) eqn:Hb3.
    + assert (Hc3 : if lt then z3 < z1 else z1 < z3)
        by (unfold Rlt_b in Hb3; destruct lt;
            [destruct (Rlt_dec z3 z1)|destruct (Rlt_dec z1 z3)]; auto; discriminate).
      destruct (IH _ _ _ _ _ _ Hc3 E H) as (j & Hj & Hv & Hm).
      exists (S j); split; [rewrite Hj, !S_INR; ring|].
      split; [replace (t1 + INR (S j) * dt) with (t1 + dt + INR j * dt)
                by (rewrite S_INR; ring); exact Hv|].
      destruct lt; lra.
    + assert (Hw : walk fuel tc z0 s lt dt (t1 + dt) z3 z1 = Ok (t1 + dt, z3, z1))
        by (destruct fuel; cbn [walk]; rewrite Hb3; reflexivity).
      rewrite Hw in H; injection H as <- <- <-; exists 0%nat.
      split; [simpl; ring|]. split; [replace (t1 + INR 0 * dt) with t1 by (simpl; ring); exact Ht|].
      destruct lt; lra.
Qed.

Lemma MaxMin_spec (fuel : nat) (tc : TideConstitType) (t z0 : R) (s : bool)
    (hMax tMax hMin tMin : R) :
  tide_MaxMin fuel tc t z0 s = Ok (hMax, tMax, hMin, tMin) ->
  exists z, tide_t tc t z0 s = Ok z
    /\ tide_t tc tMax z0 s = Ok hMax /\ tide_t tc tMin z0 s = Ok hMin
    /\ hMin <= z <= hMax /\ hMin < hMax
    /\ ((tMin < t <= tMax) \/ (tMax < t <= tMin)).
Proof.
  unfold tide_MaxMin; intro H.
  destruct (tc_invalid tc); [discriminate|].
  destruct (tide_t tc t z0 s) as [z| |] eqn:Ez; cbn [obind] in H; try discriminate.
  exists z; split; [reflexivity|].
  destruct (tide_t tc (t - MAX_RES) z0 s) as [z1| |] eqn:Ez1; cbn [obind] in H;
    try discriminate.
  destruct (tie_loop fuel tc z0 s z (t - MAX_RES) z1) as [[t1 z1t]| |] eqn:Et;
    cbn [obind] in H; try discriminate.
  destruct (tie_loop_spec tc z0 s z fuel _ _ _ _ Ez1 Et) as (k & Hk & Hv1 & Hne).
  assert (HM : 0 < MAX_RES) by (unfold MAX_RES; lra).
  pose proof (pos_INR k) as Pk.
  unfold Rlt_b in H; destruct (Rlt_dec z1t z) as [Hlt|Hge].
  - destruct (walk fuel tc z0 s true (- MAX_RES) t1 z1t z) as [[[ta za] zb]| |] eqn:W1;
      cbn [obind] in H; try discriminate.
    destruct (walk_spec tc z0 s true _ _ _ _ _ _ _ _ Hlt Hv1 W1) as (j & Hj & Hvj & Hmj).
    destruct (walk fuel tc z0 s false MAX_RES t z zb) as [[[tc' zc] zd]| |] eqn:W2;
      cbn [obind] in H; try discriminate.
    assert (Hc2 : zb < z) by lra.
    destruct (walk_spec tc z0 s false _ _ _ _ _ _ _ _ Hc2 Ez W2) as (i & Hi & Hvi & Hmi).
    injection H as <- <- <- <-.
    pose proof (pos_INR j) as Pj; pose proof (pos_INR i) as Pi.
    split; [replace (tc' - MAX_RES) with (t + INR i * MAX_RES)
              by (rewrite Hi, S_INR; ring); exact Hvi|].
    split; [replace (ta + MAX_RES) with (t1 + INR j * - MAX_RES)
              by (rewrite Hj, S_INR; ring); exact Hvj|].
    split; [lra|]. split; [lra|].
    left; rewrite Hj, Hi, Hk, !S_INR; nra.
  - assert (Hgt : z < z1t) by (destruct (Rtotal_order z1t z) as [?|[?|?]]; lra).
    destruct (walk fuel tc z0 s false (- MAX_RES) t1 z1t z) as [[[ta za] zb]| |] eqn:W1;
      cbn [obind] in H; try discriminate.
    destruct (walk_spec tc z0 s false _ _ _ _ _ _ _ _ Hgt Hv1 W1) as (j & Hj & Hvj & Hmj).
    destruct (walk fuel tc z0 s true MAX_RES t z zb) as [[[tc' zc] zd]| |] eqn:W2;
      cbn [obind] in H; try discriminate.
    assert (Hc2 : z < zb) by lra.
    destruct (walk_spec tc z0 s true _ _ _ _ _ _ _ _ Hc2 Ez W2) as (i & Hi & Hvi & Hmi).
    injection H as <- <- <- <-.
    pose proof (pos_INR j) as Pj; pose proof (pos_INR i) as Pi.
    split; [replace (ta + MAX_RES) with (t1 + INR j * - MAX_RES)
              by (rewrite Hj, S_INR; ring); exact Hvj|].
    split; [replace (tc' - MAX_RES) with (t + INR i * MAX_RES)
              by (rewrite Hi, S_INR; ring); exact Hvi|].
    split; [lra|]. split; [lra|].
    right; rewrite Hj, Hi, Hk, !S_INR; nra.
Qed.

Lemma tide_t_shift (tc : TideConstitType) (u z0 : R) (s : bool) :
  tide_t tc u z0 s = (z <-? tide_t tc u 0 s ;; Ok (z + z0)).
Proof.
  unfold tide_t; destruct (tc_invalid tc); [reflexivity|].
  destruct s; cbn [obind]; f_equal; ring.
Qed.

Lemma Rlt_b_shift (a b c : R) : Rlt_b (a + c) (b + c) = Rlt_b a b.
Proof.
  unfold Rlt_b; destruct (Rlt_dec (a + c) (b + c)), (Rlt_dec a b); auto; lra.
Qed.

Lemma Req_b_shift (a b c : R) : Req_b (a + c) (b + c) = Req_b a b.
Proof.
  unfold Req_b; destruct (Req_EM_T (a + c) (b + c)), (Req_EM_T a b); auto; lra.
Qed.

Lemma tie_loop_shift (tc : TideConstitType) (z0 : R) (s : bool) (z : R) :
  forall fuel t1 z1,
  tie_loop fuel tc z0 s (z + z0) t1 (z1 + z0)
  = ('(a, b) <-? tie_loop fuel tc 0 s z t1 z1 ;; Ok (a, b + z0)).
Proof.
  induction fuel as [|fuel IH]; intros t1 z1; cbn [tie_loop]; rewrite Req_b_shift;
    destruct (Req_b z1 z); try reflexivity.
  rewrite tide_t_shift; destruct (tide_t tc (t1 - MAX_RES) 0 s); cbn [obind];
    [apply IH|reflexivity|reflexivity].
Qed.

Lemma walk_shift (tc : TideConstitType) (z0 : R) (s lt : bool) (dt : R) :
  forall fuel t1 z1 z2,
  walk fuel tc z0 s lt dt t1 (z1 + z0) (z2 + z0)
  = ('(a, b, c) <-? walk fuel tc 0 s lt dt t1 z1 z2 ;; Ok (a, b + z0, c + z0)).
Proof.
  induction fuel as [|fuel IH]; intros t1 z1 z2; cbn [walk]; rewrite !Rlt_b_shift;
    destruct (if lt then Rlt_b z1 z2 else Rlt_b z2 z1); try reflexivity.
  rewrite tide_t_shift; destruct (tide_t tc (t1 + dt) 0 s); cbn [obind];
    [apply IH|reflexivity|reflexivity].
Qed.

Lemma MaxMin_shift (fuel : nat) (tc : TideConstitType) (t z0 : R) (s : bool) :
  tide_MaxMin fuel tc t z0 s
  = ('(hMax, tMax, hMin, tMin) <-? tide_MaxMin fuel tc t 0 s ;;
     Ok (hMax + z0, tMax, hMin + z0, tMin)).
Proof.
  unfold tide_MaxMin; destruct (tc_invalid tc); [reflexivity|].
  rewrite (tide_t_shift tc t), (tide_t_shift tc (t - MAX_RES)).
  destruct (tide_t tc t 0 s) as [z| |]; cbn [obind]; try reflexivity.
  destruct (tide_t tc (t - MAX_RES) 0 s) as [z1| |]; cbn [obind]; try reflexivity.
  rewrite tie_loop_shift.
  destruct (tie_loop fuel tc 0 s z (t - MAX_RES) z1) as [[t1 z1']| |]; cbn [obind];
    try reflexivity.
  rewrite Rlt_b_shift; destruct (Rlt_b z1' z).
  - rewrite walk_shift.
    destruct (walk fuel tc 0 s true (- MAX_RES) t1 z1' z) as [[[a b] c]| |];
      cbn [obind]; try reflexivity.
    rewrite walk_shift.
    destruct (walk fuel tc 0 s false MAX_RES t z c) as [[[a' b'] c']| |];
      cbn [obind]; reflexivity.
  - rewrite walk_shift.
    destruct (walk fuel tc 0 s false (- MAX_RES) t1 z1' z) as [[[a b] c]| |];
      cbn [obind]; try reflexivity.
    rewrite walk_shift.
    destruct (walk fuel tc 0 s true MAX_RES t z c) as [[[a' b'] c']| |];
      cbn [obind]; reflexivity.
Qed.

Lemma sec_hours_loop_length (fuel : nat) (st : SecondaryType) (z0 : R) (s : bool)
    (delt : R) :
  forall n locT refT br l,
  sec_hours_loop n fuel st z0 s delt locT refT br = Ok l -> List.length l = n.
Proof.
  induction n as [|n IH]; intros locT refT br l H; cbn [sec_hours_loop] in H.
  - injection H as <-; reflexivity.
  - destruct (tide_t (st_tc st) (refT + delt) z0 s) as [v| |]; cbn [obind] in H;
      try discriminate.
    destruct br as [[[a b] c] d].
    destruct (if Rlt_b b (refT + delt) && Rlt_b d (refT + delt)
              then tide_MaxMin fuel (st_tc st) (refT + delt) z0 s
              else Ok (a, b, c, d)) as [[[[a' b'] c'] d']| |];
      cbn [obind] in H; try discriminate.
    destruct (sec_refine 5 st locT z0 s a' c' (refT + delt) v) as [[x y]| |];
      cbn [obind] in H; try discriminate.
    destruct (sec_hours_loop n fuel st z0 s delt (locT + delt) x
                (a', b', c', d')) as [rest| |] eqn:E; cbn [obind] in H; try discriminate.
    injection H as <-; cbn [List.length]; f_equal; exact (IH _ _ _ _ E).
Qed.

Lemma secTide_hours_first (fuel : nat) (st : SecondaryType) (initHour z0 : R)
    (s : bool) (numHours : Z) (delt : R) (l : list R) :
  secTide_hours fuel st initHour z0 s numHours delt = Ok l ->
  (1 <= numHours)%Z /\ List.length l = Z.to_nat numHours
  /\ secTide_t fuel st initHour z0 s = Ok (hd 0 l).
Proof.
  unfold secTide_hours, secTide_t; intro H.
  destruct (sec_guard st); [discriminate|].
  destruct (numHours <? 0)%Z eqn:Hn; [discriminate|].
  apply Z.ltb_ge in Hn.
  destruct (tide_t (st_tc st) _ z0 s) as [refZ| |]; cbn [obind] in H |- *; try discriminate.
  destruct (tide_MaxMin fuel (st_tc st) _ z0 s) as [[[[hMax tMax] hMin] tMin]| |];
    cbn [obind] in H |- *; try discriminate.
  destruct (sec_refine 5 st initHour z0 s hMax hMin _ refZ) as [[refT' refZ']| |];
    cbn [obind] in H |- *; try discriminate.
  destruct (numHours =? 0)%Z eqn:H0; [discriminate|].
  apply Z.eqb_neq in H0.
  destruct (sec_hours_loop _ _ _ _ _ _ _ _ _) as [rest| |] eqn:E; cbn [obind] in H;
    try discriminate.
  injection H as <-.
  apply sec_hours_loop_length in E.
  split; [lia|]. split; [cbn [List.length]; rewrite E; lia| reflexivity].
Qed.

Lemma sec_refine_S (n : nat) (st : SecondaryType) (locT z0 : R) (s : bool)
    (hMax hMin refT refZ : R) :
  sec_refine (S n) st locT z0 s hMax hMin refT refZ
  = (let refT := locT - (IZR (minTime st) * (hMax - refZ)
                         + IZR (maxTime st) * (refZ - hMin)) / ((hMax - hMin) * 60) in
     refZ <-? tide_t (st_tc st) refT z0 s ;;
     sec_refine n st locT z0 s hMax hMin refT refZ).
Proof. reflexivity. Qed.

Lemma sec_refine_uniform (st : SecondaryType) (locT z0 : R) (s : bool) (hMax hMin : R) :
  maxTime st = minTime st -> hMax <> hMin ->
  forall n refT refZ,
  sec_refine (S n) st locT z0 s hMax hMin refT refZ
  = (z <-? tide_t (st_tc st) (locT - IZR (maxTime st) / 60) z0 s ;;
     Ok (locT - IZR (maxTime st) / 60, z)).
Proof.
  intros Ht Hd n; induction n as [|n IH]; intros refT refZ; rewrite sec_refine_S;
    cbv zeta;
    replace (locT - (IZR (minTime st) * (hMax - refZ) + IZR (maxTime st) * (refZ - hMin))
                     / ((hMax - hMin) * 60))
      with (locT - IZR (maxTime st) / 60)
      by (rewrite Ht; field; intro; apply Hd; lra);
    destruct (tide_t (st_tc st) (locT - IZR (maxTime st) / 60) z0 s) eqn:E;
      cbn [obind]; try reflexivity.
  rewrite IH; reflexivity.
Qed.

Lemma sec_locZ_uniform (st : SecondaryType) (hMax hMin v : R) :
  maxAdj st = minAdj st -> maxInc st = minInc st -> hMax <> hMin ->
  sec_locZ st hMax hMin v = maxAdj st * (v + IZR (mllw (st_tc st)) / 1000) + maxInc st.
Proof.
  intros Ha Hi Hd; unfold sec_locZ; rewrite <- Ha, <- Hi; field.
  intro; apply Hd; lra.
Qed.

(** X4: for a loaded secondary station whose high- and low-water time
    offsets are equal, and whose high- and low-water scale factors and
    additive terms are equal, [secTide_t] at [locT] is
    [maxAdj·(h + mllw/1000) + maxInc], where [h] is the reference tide at
    [locT - maxTime/60], whenever the search for the reference extrema
    succeeds. *)
Theorem secTide_t_uniform_offsets (fuel : nat) (st : SecondaryType) (locT z0 : R) (s : bool) :
  sec_guard st = None -> maxTime st = minTime st -> maxAdj st = minAdj st ->
  maxInc st = minInc st ->
  secTide_t fuel st locT z0 s
  = (br <-? tide_MaxMin fuel (st_tc st) (locT - IZR (maxTime st) / 60) z0 s ;;
     z <-? tide_t (st_tc st) (locT - IZR (maxTime st) / 60) z0 s ;;
     Ok (maxAdj st * (z + IZR (mllw (st_tc st)) / 1000) + maxInc st)).
Proof.
  intros Hg Ht Ha Hi; unfold secTide_t; rewrite Hg.
  replace (locT - (IZR (maxTime st) + IZR (minTime st)) / 2 / 60)
    with (locT - IZR (maxTime st) / 60) by (rewrite Ht; field).
  destruct (tide_t_valid (st_tc st) (locT - IZR (maxTime st) / 60) z0 s
              (sec_guard_valid st Hg)) as [v Hv].
  rewrite Hv; cbn [obind].
  destruct (tide_MaxMin fuel (st_tc st) (locT - IZR (maxTime st) / 60) z0 s)
    as [[[[hMax tMax] hMin] tMin]| |] eqn:E; cbn [obind]; try reflexivity.
  destruct (MaxMin_spec _ _ _ _ _ _ _ _ _ E) as (z & _ & _ & _ & _ & Hlt & _).
  assert (Hd : hMax <> hMin) by lra.
  rewrite (sec_refine_uniform st locT z0 s hMax hMin Ht Hd 4), Hv; cbn [obind].
  rewrite sec_locZ_uniform by assumption; reflexivity.
Qed.

Lemma sec_hours_loop_uniform (fuel : nat) (st : SecondaryType) (z0 : R) (s : bool)
    (delt : R) :
  sec_guard st = None -> maxTime st = minTime st -> maxAdj st = minAdj st ->
  maxInc st = minInc st ->
  forall n locT refT hMax tMax hMin tMin l,
  hMin < hMax ->
  sec_hours_loop n fuel st z0 s delt locT refT (hMax, tMax, hMin, tMin) = Ok l ->
  forall k, (k < List.length l)%nat ->
  exists z, tide_t (st_tc st) (locT + INR k * delt - IZR (maxTime st) / 60) z0 s = Ok z
    /\ nth k l 0 = maxAdj st * (z + IZR (mllw (st_tc st)) / 1000) + maxInc st.
Proof.
  intros Hg Ht Ha Hi n; induction n as [|n IH];
    intros locT refT hMax tMax hMin tMin l Hlt H k Hk; cbn [sec_hours_loop] in H.
  - injection H as <-; cbn in Hk; lia.
  - destruct (tide_t (st_tc st) (refT + delt) z0 s) as [v| |]; cbn [obind] in H;
      try discriminate.
    destruct (if Rlt_b tMax (refT + delt) && Rlt_b tMin (refT + delt)
              then tide_MaxMin fuel (st_tc st) (refT + delt) z0 s
              else Ok (hMax, tMax, hMin, tMin)) as [[[[a b] c] d]| |] eqn:Eb;
      cbn [obind] in H; try discriminate.
    assert (Hlt' : c < a).
    { destruct (Rlt_b tMax (refT + delt) && Rlt_b tMin (refT + delt)).
      - destruct (MaxMin_spec _ _ _ _ _ _ _ _ _ Eb) as (z & _ & _ & _ & _ & Hl & _); exact Hl.
      - injection Eb as <- <- <- <-; exact Hlt. }
    assert (Hd : a <> c) by lra.
    rewrite (sec_refine_uniform st locT z0 s a c Ht Hd 4) in H.
    destruct (tide_t (st_tc st) (locT - IZR (maxTime st) / 60) z0 s) as [w| |] eqn:Ew;
      cbn [obind] in H; try discriminate.
    destruct (sec_hours_loop n fuel st z0 s delt (locT + delt) _ (a, b, c, d))
      as [rest| |] eqn:E; cbn [obind] in H; try discriminate.
    injection H as <-.
    destruct k as [|k].
    + exists w; split.
      * replace (locT + INR 0 * delt - IZR (maxTime st) / 60)
          with (locT - IZR (maxTime st) / 60) by (simpl; ring); exact Ew.
      * cbn [nth]; apply sec_locZ_uniform; assumption.
    + cbn [List.length] in Hk.
      destruct (IH _ _ _ _ _ _ _ Hlt' E k ltac:(lia)) as (z & Hz & Hn).
      exists z; split; [| exact Hn].
      replace (locT + INR (S k) * delt - IZR (maxTime st) / 60)
        with (locT + delt + INR k * delt - IZR (maxTime st) / 60)
        by (rewrite S_INR; ring); exact Hz.
Qed.

(** X5: for such a station, every value [k] that [secTide_hours] returns is
    [maxAdj·(h_k + mllw/1000) + maxInc], where [h_k] is the reference tide
    at [initHour + k·delt - maxTime/60]. *)
Theorem secTide_hours_uniform_offsets (fuel : nat) (st : SecondaryType) (initHour z0 : R)
    (s : bool) (numHours : Z) (delt : R) (l : list R) :
  sec_guard st = None -> maxTime st = minTime st -> maxAdj st = minAdj st ->
  maxInc st = minInc st ->
  secTide_hours fuel st initHour z0 s numHours delt = Ok l ->
  forall k, (k < List.length l)%nat ->
  exists z, tide_t (st_tc st) (initHour + INR k * delt - IZR (maxTime st) / 60) z0 s
              = Ok z
    /\ nth k l 0 = maxAdj st * (z + IZR (mllw (st_tc st)) / 1000) + maxInc st.
Proof.
  intros Hg Ht Ha Hi H.
  unfold secTide_hours in H; rewrite Hg in H.
  destruct (numHours <? 0)%Z; [discriminate|].
  replace (initHour - (IZR (maxTime st) + IZR (minTime st)) / 2 / 60)
    with (initHour - IZR (maxTime st) / 60) in H by (rewrite Ht; field).
  destruct (tide_t (st_tc st) (initHour - IZR (maxTime st) / 60) z0 s) as [v| |] eqn:Ev;
    cbn [obind] in H; try discriminate.
  destruct (tide_MaxMin fuel (st_tc st) (initHour - IZR (maxTime st) / 60) z0 s)
    as [[[[hMax tMax] hMin] tMin]| |] eqn:E; cbn [obind] in H; try discriminate.
  destruct (MaxMin_spec _ _ _ _ _ _ _ _ _ E) as (z & _ & _ & _ & _ & Hlt & _).
  assert (Hd : hMax <> hMin) by lra.
  rewrite (sec_refine_uniform st initHour z0 s hMax hMin Ht Hd 4), Ev in H;
    cbn [obind] in H.
  destruct (numHours =? 0)%Z; [discriminate|].
  destruct (sec_hours_loop _ _ _ _ _ _ _ _ _) as [rest| |] eqn:El; cbn [obind] in H;
    try discriminate.
  injection H as <-.
  intros [|k] Hk.
  - exists v; split.
    + replace (initHour + INR 0 * delt - IZR (maxTime st) / 60)
        with (initHour - IZR (maxTime st) / 60) by (simpl; ring); exact Ev.
    + cbn [nth]; apply sec_locZ_uniform; assumption.
  - cbn [List.length] in Hk.
    destruct (sec_hours_loop_uniform fuel st z0 s delt Hg Ht Ha Hi _ _ _ _ _ _ _ _
                Hlt El k ltac:(lia)) as (w & Hw & Hn).
    exists w; split; [| exact Hn].
    replace (initHour + INR (S k) * delt - IZR (maxTime st) / 60)
      with (initHour + delt + INR k * delt - IZR (maxTime st) / 60)
      by (rewrite S_INR; ring); exact Hw.
Qed.

(** X6: [read_ft03] leaves the MLLW, station, year, speeds, amplitudes and
    epochs of the constituent set unchanged; its outcome, and on success the
    node factors and equilibrium arguments below [NUMT], do not depend on
    the set it starts from. *)
Theorem read_ft03_frame (ft03 : list string) (iyear : Z) (tc tc' : TideConstitType) :
  key03 (snd (read_ft03 ft03 iyear tc)) = key03 tc
  /\ fst (read_ft03 ft03 iyear tc) = fst (read_ft03 ft03 iyear tc')
  /\ (forall b, fst (read_ft03 ft03 iyear tc) = Ok b ->
      forall j, (j < NUMT)%nat ->
        xode (snd (read_ft03 ft03 iyear tc)) j = xode (snd (read_ft03 ft03 iyear tc')) j
        /\ vpu (snd (read_ft03 ft03 iyear tc)) j = vpu (snd (read_ft03 ft03 iyear tc')) j).
Proof.
  destruct (read_ft03_rel ft03 iyear tc tc' I) as [F A].
  split; [apply read_ft03_keeps|]. split; [exact F|].
  intros b Hb j Hj; destruct (A b Hb) as [Ax Av]; split; [apply Ax| apply Av]; exact Hj.
Qed.

(** X7: [read_ft07] leaves the MLLW, station, year, node factors and
    equilibrium arguments of the constituent set unchanged; its outcome
    (the MLLW it returns, or its error), and on success the speeds,
    amplitudes and epochs below [NUMT], do not depend on the set it starts
    from. *)
Theorem read_ft07_frame (ft07 : list string) (nsta_ : Z) (tc tc' : TideConstitType) :
  key07 (snd (read_ft07 ft07 nsta_ tc)) = key07 tc
  /\ fst (read_ft07 ft07 nsta_ tc) = fst (read_ft07 ft07 nsta_ tc')
  /\ (forall m, fst (read_ft07 ft07 nsta_ tc) = Ok m ->
      forall j, (j < NUMT)%nat ->
        ang (snd (read_ft07 ft07 nsta_ tc)) j = ang (snd (read_ft07 ft07 nsta_ tc')) j
        /\ amp (snd (read_ft07 ft07 nsta_ tc)) j = amp (snd (read_ft07 ft07 nsta_ tc')) j
        /\ epoc (snd (read_ft07 ft07 nsta_ tc)) j = epoc (snd (read_ft07 ft07 nsta_ tc')) j).
Proof.
  destruct (read_ft07_rel ft07 nsta_ tc tc' I) as [F A].
  split; [apply read_ft07_keeps|]. split; [exact F|].
  intros m Hm j Hj; destruct (A m Hm) as (Aa & Am & Ae).
  split; [apply Aa; exact Hj|]. split; [apply Am| apply Ae]; exact Hj.
Qed.

(** X8: [LoadConstit] into two sets whose year and station both differ from
    the requested ones gives the same outcome; on success both results hold
    the requested year and station, the same MLLW and the same node
    factors, equilibrium arguments, speeds, amplitudes and epochs below
    [NUMT]. *)
Theorem LoadConstit_fresh_load (ft03 ft07 : list string) (y s : Z)
    (tc1 tc2 : TideConstitType) :
  year tc1 <> y -> nsta tc1 <> s -> year tc2 <> y -> nsta tc2 <> s ->
  fst (LoadConstit ft03 ft07 y s tc1) = fst (LoadConstit ft03 ft07 y s tc2)
  /\ (fst (LoadConstit ft03 ft07 y s tc1) = Ok true ->
      let t1 := snd (LoadConstit ft03 ft07 y s tc1) in
      let t2 := snd (LoadConstit ft03 ft07 y s tc2) in
      year t1 = y /\ year t2 = y /\ nsta t1 = s /\ nsta t2 = s /\ mllw t1 = mllw t2
      /\ AXV NUMT t1 t2 /\ AAE NUMT t1 t2).
Proof.
  intros Hy1 Hs1 Hy2 Hs2.
  rewrite (LoadConstit_fresh ft03 ft07 y s tc1 Hy1 Hs1),
          (LoadConstit_fresh ft03 ft07 y s tc2 Hy2 Hs2).
  destruct (read_ft03_rel ft03 y (set_year tc1 y) (set_year tc2 y) I) as [F3 A3].
  pose proof (read_ft03_keeps ft03 y (set_year tc1 y)) as K3.
  pose proof (read_ft03_keeps ft03 y (set_year tc2 y)) as K3'.
  destruct (read_ft03 ft03 y (set_year tc1 y)) as [o3 s3].
  destruct (read_ft03 ft03 y (set_year tc2 y)) as [o3' s3'].
  cbn [fst snd] in F3, A3, K3, K3'; subst o3'.
  destruct o3 as [b| e |]; [| split; [reflexivity| discriminate]..].
  specialize (A3 b eq_refl).
  destruct (read_ft07_rel ft07 s (set_nsta s3 s) (set_nsta s3' s) I) as [F4 A4].
  pose proof (read_ft07_keeps ft07 s (set_nsta s3 s)) as K4.
  pose proof (read_ft07_keeps ft07 s (set_nsta s3' s)) as K4'.
  destruct (read_ft07 ft07 s (set_nsta s3 s)) as [o4 s4].
  destruct (read_ft07 ft07 s (set_nsta s3' s)) as [o4' s4'].
  cbn [fst snd] in F4, A4, K4, K4'; subst o4'.
  destruct o4 as [m| e |]; [| split; [reflexivity| discriminate]..].
  specialize (A4 m eq_refl).
  split; [reflexivity|]; intros _; cbv zeta; cbn [fst snd].
  unfold key03, key07 in *; cbn in K3, K3', K4, K4'.
  injection K3 as _ _ Hy3 _ _ _; injection K3' as _ _ Hy3' _ _ _.
  injection K4 as _ Hn4 Hy4 Hx4 Hv4; injection K4' as _ Hn4' Hy4' Hx4' Hv4'.
  destruct A3 as [Ax Av]; destruct A4 as (Aa & Am & Ae).
  cbn; repeat split; try congruence.
  - intros j Hj; cbn; rewrite Hx4, Hx4'; apply Ax, Hj.
  - intros j Hj; cbn; rewrite Hv4, Hv4'; apply Av, Hj.
  - exact Aa.
  - exact Am.
  - exact Ae.
Qed.

Lemma find_station_sets (secSta_ : Z) :
  forall ft08 st w st1,
  find_station ft08 secSta_ st = (Ok w, st1) -> st1 = set_secSta st secSta_.
Proof.
  induction ft08 as [|line rest IH]; intros st w st1 H; cbn [find_station] in H.
  - discriminate.
  - destruct line as [|c r]; [discriminate|].
    destruct (Ascii.eqb c "#"); [exact (IH _ _ _ H)|].
    destruct (str_find "|" (String c r) =? -1)%Z; [exact (IH _ _ _ H)|].
    unfold bind, lift in H.
    destruct (int_o (take (Z.to_nat (str_find "|" (String c r))) (String c r)));
      try discriminate.
    destruct (negb (a =? secSta_)%Z); [exact (IH _ _ _ H)|].
    unfold modify, ret in H; injection H as _ <-; reflexivity.
Qed.

(** X9: when [LoadSecond] finds the station's row in ft08 but nothing
    follows the station number, it raises the format error with the station
    number already stored; a later call for the same station then skips
    ft08 and only reloads the untouched reference set for its old station
    number. *)
Theorem LoadSecond_malformed_row (ft03 ft07 ft08 : list string) (y s : Z)
    (st : SecondaryType) (w : string) (st1 : SecondaryType) :
  secSta st <> s -> find_station ft08 s st = (Ok w, st1) ->
  str_find "|" w = (-1)%Z ->
  LoadSecond ft03 ft07 ft08 y s st = (Exc bad_format, set_secSta st s)
  /\ forall y', LoadSecond ft03 ft07 ft08 y' s (set_secSta st s)
                = on_st_tc (LoadConstit ft03 ft07 y' (nsta (st_tc st))) (set_secSta st s).
Proof.
  intros Hs Hf Hw.
  pose proof (find_station_sets s ft08 st w st1 Hf) as ->.
  split.
  - unfold LoadSecond, bind, get; rewrite (proj2 (Z.eqb_neq _ _) Hs), Hf.
    unfold next_field; rewrite Hw; reflexivity.
  - intro y'; unfold LoadSecond, bind, get; cbn [secSta set_secSta upd_st].
    rewrite Z.eqb_refl; reflexivity.
Qed.

Lemma LoadSecond_malformed_row_witness :
  secSta SecondaryType_default <> 7%Z
  /\ LoadSecond [] [] ["7|Broken row" ++ nl]%string 2023 7 SecondaryType_default
     = (Exc bad_format, set_secSta SecondaryType_default 7).
Proof.
  split; [discriminate|].
  apply (LoadSecond_malformed_row [] [] ["7|Broken row" ++ nl]%string 2023 7
           SecondaryType_default ("Broken row" ++ nl)%string
           (set_secSta SecondaryType_default 7)); [discriminate| reflexivity| reflexivity].
Defined.

Lemma tide_hours_length (tc : TideConstitType) (h z0 : R) (s : bool) (n : Z) (d : R)
    (l : list R) :
  tide_hours tc h z0 s n d = Ok l -> (0 <= n)%Z /\ List.length l = Z.to_nat n.
Proof.
  unfold tide_hours; intro H; destruct (tc_invalid tc); [discriminate|].
  destruct (n <? 0)%Z eqn:Hn; [discriminate|]; apply Z.ltb_ge in Hn.
  destruct s; injection H as <-; rewrite !length_map, length_seq; auto.
Qed.

Lemma series_length (fuel : nat)
    (s sec : bool) (delt : R) (tt : TideType) (i : Z) (z : R) (n : Z) (l : list R) :
  series fuel s sec delt tt i z n = Ok l ->
  (0 <= n)%Z /\ List.length l = Z.to_nat n.
Proof.
  unfold series; destruct sec; cbn [negb]; intro H.
  - destruct (secTide_hours_first _ _ _ _ _ _ _ _ H) as (H1 & H2 & _); split; [lia| exact H2].
  - exact (tide_hours_length _ _ _ _ _ _ _ H).
Qed.

Lemma chunk_loop_length (fuel : nat) (station : Z) (ft03 ft07 ft08 : list string)
    (s sec : bool) (delt : R) :
  forall k tt y T i n z data l,
  chunk_loop fuel station ft03 ft07 ft08 s sec delt k tt y T i n z data = Ok l ->
  List.length l = (List.length data + Z.to_nat n)%nat.
Proof.
  induction k as [|k IH]; intros tt y T i n z data l H; cbn [chunk_loop] in H;
    destruct (0 <? n)%Z eqn:Hn; try discriminate.
  - apply Z.ltb_ge in Hn; injection H as <-; lia.
  - destruct (if (T <=? i)%Z
              then load_year station ft03 ft07 ft08 sec tt
                     (if (T <=? i)%Z then (y + 1)%Z else y)
              else Ok tt) as [tt'| |]; cbn [obind] in H; try discriminate.
    destruct (series fuel s sec delt tt' _ z _) as [zhr| |] eqn:Es;
      cbn [obind] in H; try discriminate.
    apply series_length in Es; destruct Es as [_ Es].
    apply IH in H; rewrite H, length_app, Es.
    apply Z.ltb_lt in Hn.
    destruct (n >? 24)%Z eqn:H24.
    + apply Z.gtb_lt in H24; lia.
    + rewrite Z.gtb_ltb, Z.ltb_ge in H24; lia.
  - apply Z.ltb_ge in Hn; injection H as <-; lia.
Qed.

Lemma hourly_length (fuel : nat) (station : Z) (ft03 ft07 ft08 : list string)
    (s sec : bool) (delt : R) (tt : TideType) (y i n : Z) (z : R) (l : list R) :
  hourly fuel station ft03 ft07 ft08 s sec delt tt y i n z = Ok l ->
  List.length l = Z.to_nat n.
Proof.
  unfold hourly; intro H.
  destruct (n + i <? 365 * 24)%Z; [exact (proj2 (series_length _ _ _ _ _ _ _ _ _ H))|].
  destruct (series fuel s sec delt tt i z _) as [zhr| |] eqn:Es;
    cbn [obind] in H; try discriminate.
  apply series_length in Es; destruct Es as [He Es].
  apply chunk_loop_length in H; rewrite H, Es.
  destruct (24 - i mod 24 >? n)%Z eqn:Hc.
  - apply Z.gtb_lt in Hc; lia.
  - rewrite Z.gtb_ltb, Z.ltb_ge in Hc; lia.
Qed.

(** X10: whenever [TideC_stn] returns a series, it holds exactly
    [numHour] values, also when the run spans several chunks or years. *)
Theorem TideC_stn_length (fuel : nat) (cmd : string) (station : Z)
    (date : option (Z * Z)) (numHour : Z) (initHeight : R)
    (ft03 ft07 ft08 : list string) (s sec add_mllw : bool) (delt : R) (l : list R) :
  TideC_stn fuel cmd station date numHour initHeight ft03 ft07 ft08 s sec add_mllw delt
    = Ok l -> List.length l = Z.to_nat numHour.
Proof.
  unfold TideC_stn; intro H.
  destruct (negb (String.eqb (str_lower cmd) "hourly")); [discriminate|].
  destruct (negb (Req_b delt 1) && _); [discriminate|].
  destruct date as [[y i]|]; [|discriminate].
  destruct (station =? -1)%Z; [discriminate|].
  destruct (negb _); [discriminate|].
  destruct (load_year station ft03 ft07 ft08 sec TideType_default y) as [tt| |];
    cbn [obind] in H; try discriminate.
  exact (hourly_length _ _ _ _ _ _ _ _ _ _ _ _ _ _ H).
Qed.

Lemma tide_hours_shift (tc : TideConstitType) (h z0 c : R) (s : bool) (n : Z) (d : R) :
  tide_hours tc h (z0 + c) s n d
  = (l <-? tide_hours tc h z0 s n d ;; Ok (map (fun x => x + c) l)).
Proof.
  unfold tide_hours; destruct (tc_invalid tc); [reflexivity|].
  destruct (n <? 0)%Z; [reflexivity|].
  destruct s; cbn [obind]; f_equal; rewrite (map_map _ (fun x => x + c));
    apply map_ext; intro; ring.
Qed.

Lemma chunk_loop_shift (fuel : nat) (station : Z) (ft03 ft07 ft08 : list string)
    (s : bool) (delt c : R) :
  forall k tt y T i n z data,
  chunk_loop fuel station ft03 ft07 ft08 s false delt k tt y T i n (z + c)
    (map (fun x => x + c) data)
  = (l <-? chunk_loop fuel station ft03 ft07 ft08 s false delt k tt y T i n z data ;;
     Ok (map (fun x => x + c) l)).
Proof.
  induction k as [|k IH]; intros tt y T i n z data; cbn [chunk_loop];
    destruct (0 <? n)%Z; try reflexivity.
  destruct (if (T <=? i)%Z
            then load_year station ft03 ft07 ft08 false tt
                   (if (T <=? i)%Z then (y + 1)%Z else y)
            else Ok tt) as [tt'| |]; cbn [obind]; try reflexivity.
  unfold series; cbn [negb]; rewrite tide_hours_shift.
  destruct (tide_hours (tt_tc tt') _ z s _ delt) as [zhr| |]; cbn [obind]; try reflexivity.
  rewrite <- map_app; apply IH.
Qed.

Lemma hourly_shift (fuel : nat) (station : Z) (ft03 ft07 ft08 : list string)
    (s : bool) (delt : R) (tt : TideType) (y i n : Z) (z c : R) :
  hourly fuel station ft03 ft07 ft08 s false delt tt y i n (z + c)
  = (l <-? hourly fuel station ft03 ft07 ft08 s false delt tt y i n z ;;
     Ok (map (fun x => x + c) l)).
Proof.
  unfold hourly, series; cbn [negb].
  destruct (n + i <? 365 * 24)%Z; [apply tide_hours_shift|].
  rewrite tide_hours_shift.
  destruct (tide_hours (tt_tc tt) (IZR i) z s _ delt) as [zhr| |]; cbn [obind];
    try reflexivity.
  apply chunk_loop_shift.
Qed.

(** X11: for a primary station, [TideC_stn] with [add_mllw] set returns the
    series it returns without it, each value raised by [mllw/1000] of the
    station's constituent set loaded for the requested year; both fail
    together. *)
Theorem TideC_stn_primary_mllw (fuel : nat) (cmd : string) (station y i numHour : Z)
    (initHeight : R) (ft03 ft07 ft08 : list string) (s : bool) (delt : R) :
  TideC_stn fuel cmd station (Some (y, i)) numHour initHeight ft03 ft07 ft08 s false true delt
  = (l <-? TideC_stn fuel cmd station (Some (y, i)) numHour initHeight ft03 ft07 ft08
             s false false delt ;;
     Ok (map (fun x => x + IZR (mllw (snd (LoadConstit ft03 ft07 y station
                                              TideConstitType_default))) / 1000) l)).
Proof.
  unfold TideC_stn.
  destruct (negb (String.eqb (str_lower cmd) "hourly")); [reflexivity|].
  destruct (negb (Req_b delt 1) && _); [reflexivity|].
  destruct (station =? -1)%Z; [reflexivity|].
  destruct (negb _); [reflexivity|].
  unfold load_year; cbn [negb].
  change (tt_tc TideType_default) with TideConstitType_default.
  destruct (LoadConstit ft03 ft07 y station TideConstitType_default) as [[[|]| |] tc'];
    cbn [obind negb tt_tc snd]; try reflexivity.
  apply hourly_shift.
Qed.

(** X12: for a secondary station, the output of [main] does not depend on
    the [mllw] flag: the MLLW it would subtract is that of the untouched
    default constituent set, which is [0]. *)
Theorem main_secondary_mllw_flag (fuel : nat) (nsta_ year_ ih numHours : Z)
    (f_seasonal : bool) (ft03 ft07 ft08 : list string) :
  main fuel "secondary" nsta_ year_ ih numHours true f_seasonal ft03 ft07 ft08
  = main fuel "secondary" nsta_ year_ ih numHours false f_seasonal ft03 ft07 ft08.
Proof.
  unfold main; cbn [negb String.eqb Ascii.eqb Bool.eqb orb].
  destruct (numHours <? 0)%Z; [reflexivity|].
  destruct (LoadSecond ft03 ft07 ft08 year_ nsta_ SecondaryType_default) as [[[|]| |] st].
  - cbn [negb mllw TideConstitType_default].
    replace (0 - IZR 0 / 1000) with 0 by field; reflexivity.
  - reflexivity.
  - reflexivity.
  - reflexivity.
Qed.

Lemma print_zhr_short (zhr : list R) :
  forall m k i, (m < k)%nat -> List.length zhr = (i + m)%nat ->
  print_zhr k i zhr
  = (map (fun j => (INR j, nth j zhr 0)) (seq i m),
     Exc (IndexError ("index " ++ py_str_nat (i + m)
            ++ " is out of bounds for axis 0 with size " ++ py_str_nat (i + m)))).
Proof.
  induction m as [|m IH]; intros k i Hk Hl; (destruct k as [|k]; [lia|]); cbn [print_zhr].
  - rewrite (proj2 (nth_error_None zhr i)) by lia.
    rewrite Hl, Nat.add_0_r; reflexivity.
  - destruct (nth_error zhr i) as [v|] eqn:E;
      [| apply nth_error_None in E; lia].
    rewrite (IH k (S i)) by lia.
    cbn [seq map]; rewrite (nth_error_nth zhr i 0 E).
    replace (S i + m)%nat with (i + S m)%nat by lia; reflexivity.
Qed.

Lemma tide_hours_ok (tc : TideConstitType) (initHour z0 : R) (seasonal : bool)
    (numHours : Z) (delt : R) :
  tc_invalid tc = false -> (0 <= numHours)%Z ->
  exists zs, tide_hours tc initHour z0 seasonal numHours delt = Ok zs
    /\ List.length zs = Z.to_nat numHours.
Proof.
  intros Hv Hh; unfold tide_hours; rewrite Hv.
  replace (numHours <? 0)%Z with false by (symmetry; apply Z.ltb_ge; lia).
  destruct seasonal; (eexists; split; [reflexivity|]);
    rewrite !length_map, length_seq; reflexivity.
Qed.

(** X13: for a primary station that loads, [main] with [0 <= numHours < 12]
    prints the [numHours] hourly heights of [tide_hours] with their indices
    and then raises numpy's [IndexError] on index [numHours], before the
    tenth-hour loop. *)
Theorem main_primary_short_run (fuel : nat) (nsta_ year_ ih numHours : Z)
    (f_mllw f_seasonal : bool) (ft03 ft07 ft08 : list string) (tc : TideConstitType) :
  LoadConstit ft03 ft07 year_ nsta_ TideConstitType_default = (Ok true, tc) ->
  tc_invalid tc = false -> (0 <= numHours < 12)%Z ->
  exists zhr,
    tide_hours tc (IZR ih) (if f_mllw then 0 + IZR (mllw tc) / 1000 else 0)
      f_seasonal numHours 1 = Ok zhr
    /\ main fuel "primary" nsta_ year_ ih numHours f_mllw f_seasonal ft03 ft07 ft08
       = (map (fun j => (INR j, nth j zhr 0)) (seq 0 (Z.to_nat numHours)),
          Exc (IndexError ("index " ++ py_str_nat (Z.to_nat numHours)
                 ++ " is out of bounds for axis 0 with size "
                 ++ py_str_nat (Z.to_nat numHours)))).
Proof.
  intros HL Hv Hn.
  destruct (tide_hours_ok tc (IZR ih) (if f_mllw then 0 + IZR (mllw tc) / 1000 else 0)
              f_seasonal numHours 1 Hv ltac:(lia)) as (zhr & Hz & Hlen).
  exists zhr; split; [exact Hz|].
  unfold main; cbn [negb String.eqb Ascii.eqb Bool.eqb orb].
  rewrite (proj2 (Z.ltb_ge numHours 0)) by lia.
  rewrite HL, Hz.
  rewrite (print_zhr_short zhr (Z.to_nat numHours) 12 0) by lia.
  reflexivity.
Qed.

Lemma load_prim_eq :
  LoadConstit ft03_wave ft07_wave 2023 1 TideConstitType_default = load_prim.
Proof. reflexivity. Qed.

Lemma load_prim_ok : fst load_prim = Ok true /\ tc_invalid (snd load_prim) = false.
Proof. split; reflexivity. Qed.

Lemma main_primary_short_run_witness :
  exists zhr,
  LoadConstit ft03_wave ft07_wave 2023 1 TideConstitType_default = (Ok true, snd load_prim)
  /\ tc_invalid (snd load_prim) = false /\ (0 <= 5 < 12)%Z /\
  tide_hours (snd load_prim) (IZR 0) 0 true 5 1 = Ok zhr /\
  main 0 "primary" 1 2023 0 5 false true ft03_wave ft07_wave []
  = (map (fun j => (INR j, nth j zhr 0)) (seq 0 5),
     Exc (IndexError ("index 5 is out of bounds for axis 0 with size 5"))).
Proof.
  assert (HL : LoadConstit ft03_wave ft07_wave 2023 1 TideConstitType_default
               = (Ok true, snd load_prim)) by (rewrite load_prim_eq; reflexivity).
  destruct (main_primary_short_run 0 1 2023 0 5 false true ft03_wave ft07_wave []
              (snd load_prim) HL (proj2 load_prim_ok) ltac:(lia)) as (zhr & H1 & H2).
  exists zhr; split; [exact HL|]; split; [exact (proj2 load_prim_ok)|].
  split; [lia|]; split; [exact H1|]; exact H2.
Defined.

(** X1: when [tide_MaxMin] succeeds at time [t], [hMax] and [hMin] are the
    tide heights at [tMax] and [tMin], the height at [t] lies between them,
    [hMin < hMax], and [t] lies in the half-open interval from [tMin] to
    [tMax] (or from [tMax] to [tMin]). *)
Theorem tide_MaxMin_bracket (fuel : nat) (tc : TideConstitType) (t z0 : R) (s : bool)
    (hMax tMax hMin tMin : R) :
  tide_MaxMin fuel tc t z0 s = Ok (hMax, tMax, hMin, tMin) ->
  exists z, tide_t tc t z0 s = Ok z
    /\ tide_t tc tMax z0 s = Ok hMax /\ tide_t tc tMin z0 s = Ok hMin
    /\ hMin <= z <= hMax /\ hMin < hMax
    /\ ((tMin < t <= tMax) \/ (tMax < t <= tMin)).
Proof. apply MaxMin_spec. Qed.

Lemma tide_MaxMin_bracket_witness :
  exists tMax tMin, tide_MaxMin 2 tc_wave 0 0 true = Ok (1, tMax, -1, tMin)
  /\ exists z, tide_t tc_wave 0 0 true = Ok z /\ -1 <= z <= 1
  /\ ((tMin < 0 <= tMax) \/ (tMax < 0 <= tMin)).
Proof.
  destruct tide_MaxMin_wave as (tM & tm & H).
  exists tM, tm; split; [exact H|].
  destruct (tide_MaxMin_bracket 2 tc_wave 0 0 true 1 tM (-1) tm H)
    as (z & Hz & _ & _ & Hb & _ & Ht).
  exists z; split; [exact Hz|]; split; [exact Hb| exact Ht].
Defined.

(** X3: when [secTide_hours] succeeds, [numHours] is at least [1], it
    returns [numHours] values, and the first is [secTide_t] at
    [initHour]. *)
Theorem secTide_hours_first_sample (fuel : nat) (st : SecondaryType) (initHour z0 : R)
    (s : bool) (numHours : Z) (delt : R) (l : list R) :
  secTide_hours fuel st initHour z0 s numHours delt = Ok l ->
  (1 <= numHours)%Z /\ List.length l = Z.to_nat numHours
  /\ secTide_t fuel st initHour z0 s = Ok (hd 0 l).
Proof. apply secTide_hours_first. Qed.

Lemma secTide_hours_first_sample_witness :
  secTide_hours 4 st_loaded 0 0 true 1 1 = Ok [0 + 1 + 1 / 2]
  /\ secTide_t 4 st_loaded 0 0 true = Ok (0 + 1 + 1 / 2).
Proof.
  split; [exact (secTide_hours_loaded 0)|].
  exact (proj2 (proj2 (secTide_hours_first_sample 4 st_loaded 0 0 true 1 1 _
                         (secTide_hours_loaded 0)))).
Defined.

Lemma secTide_t_uniform_offsets_witness :
  sec_guard st_loaded = None /\ maxTime st_loaded = minTime st_loaded
  /\ maxAdj st_loaded = minAdj st_loaded /\ maxInc st_loaded = minInc st_loaded
  /\ secTide_t 4 st_loaded 0 0 true
     = (br <-? tide_MaxMin 4 (st_tc st_loaded) (0 - IZR (maxTime st_loaded) / 60) 0 true ;;
        z <-? tide_t (st_tc st_loaded) (0 - IZR (maxTime st_loaded) / 60) 0 true ;;
        Ok (maxAdj st_loaded * (z + IZR (mllw (st_tc st_loaded)) / 1000)
            + maxInc st_loaded)).
Proof.
  destruct st_loaded_facts as (Hg & HM & Hm & HA & Ha & HI & Hi & _).
  assert (Ht : maxTime st_loaded = minTime st_loaded) by congruence.
  assert (Hd : maxAdj st_loaded = minAdj st_loaded) by congruence.
  assert (Hc : maxInc st_loaded = minInc st_loaded) by congruence.
  split; [exact Hg|]; split; [exact Ht|]; split; [exact Hd|]; split; [exact Hc|].
  exact (secTide_t_uniform_offsets 4 st_loaded 0 0 true Hg Ht Hd Hc).
Defined.

Lemma secTide_hours_uniform_offsets_witness :
  secTide_hours 4 st_loaded 0 0 true 1 1 = Ok [0 + 1 + 1 / 2]
  /\ exists z,
    tide_t (st_tc st_loaded) (0 + INR 0 * 1 - IZR (maxTime st_loaded) / 60) 0 true = Ok z
    /\ nth 0 [0 + 1 + 1 / 2] 0
       = maxAdj st_loaded * (z + IZR (mllw (st_tc st_loaded)) / 1000) + maxInc st_loaded.
Proof.
  destruct st_loaded_facts as (Hg & HM & Hm & HA & Ha & HI & Hi & _).
  split; [exact (secTide_hours_loaded 0)|].
  apply (secTide_hours_uniform_offsets 4 st_loaded 0 0 true 1 1 [0 + 1 + 1 / 2]
           Hg ltac:(congruence) ltac:(congruence) ltac:(congruence)
           (secTide_hours_loaded 0) 0 ltac:(simpl; lia)).
Defined.

Lemma LoadConstit_fresh_load_witness :
  year TideConstitType_default <> 2023%Z /\ nsta TideConstitType_default <> 1%Z
  /\ year (set_nsta (set_year tc_flat 2020) 2) <> 2023%Z
  /\ nsta (set_nsta (set_year tc_flat 2020) 2) <> 1%Z
  /\ fst (LoadConstit ft03_wave ft07_wave 2023 1 TideConstitType_default)
     = fst (LoadConstit ft03_wave ft07_wave 2023 1 (set_nsta (set_year tc_flat 2020) 2)).
Proof.
  split; [discriminate|]; split; [discriminate|]; split; [discriminate|];
    split; [discriminate|].
  exact (proj1 (LoadConstit_fresh_load ft03_wave ft07_wave 2023 1
                  TideConstitType_default (set_nsta (set_year tc_flat 2020) 2)
                  ltac:(discriminate) ltac:(discriminate)
                  ltac:(discriminate) ltac:(discriminate))).
Defined.

Lemma TideC_stn_length_witness :
  TideC_stn 4 "hourly" 5 (Some (2023%Z, 0%Z)) 1 0 ft03_wave ft07_wave ft08_wave
    true true false 1 = Ok [0 - IZR 500 / 1000 + 1 + 1 / 2]
  /\ List.length [0 - IZR 500 / 1000 + 1 + 1 / 2] = Z.to_nat 1.
Proof.
  split; [exact (TideC_stn_secondary_wave false)|].
  exact (TideC_stn_length 4 "hourly" 5 (Some (2023%Z, 0%Z)) 1 0 ft03_wave ft07_wave
           ft08_wave true true false 1 _ (TideC_stn_secondary_wave false)).
Defined.

(** ** The secondary series from two baselines *)

Lemma orel_refl_err {A B} (P : A -> B -> Prop) (e : exn) : orel P (Exc e) (Exc e).
Proof. reflexivity. Qed.



Lemma orel_same {A B} (P : A -> B -> Prop) (o : outcome unit) k1 k2 :
  (forall u, orel P (k1 u) (k2 u)) -> orel P (obind o k1) (obind o k2).
Proof. destruct o; cbn; auto. Qed.









Section SecShift.

Variables (fuel : nat) (st0 : SecondaryType) (s : bool) (z c : R).




End SecShift.







Lemma bind_keeps_after {S A B K} (key : S -> K) (c : M S A) (k : A -> M S B)
    (s : S) (a : A) (s1 : S) :
  c s = (Ok a, s1) -> keeps key (k a) -> key (snd (bind c k s)) = key s1.
Proof. intros H Hk; unfold bind; rewrite H; apply Hk. Qed.





Section DriverShift.

Variables (fuel : nat) (station : Z) (ft03 ft07 ft08 : list string)
          (s : bool) (delt : R) (st0 : SecondaryType) (z c : R).




End DriverShift.

(** * Claim C4 *)



(** X2: [tide_MaxMin] from the baseline [z0] is [tide_MaxMin] from the
    baseline [0] with both extreme heights raised by [z0] and the same two
    times; when one fails, so does the other, in the same way. *)
Theorem tide_MaxMin_baseline_shift (fuel : nat) (tc : TideConstitType) (t z0 : R) (s : bool) :
  tide_MaxMin fuel tc t z0 s
  = ('(hMax, tMax, hMin, tMin) <-? tide_MaxMin fuel tc t 0 s ;;
     Ok (hMax + z0, tMax, hMin + z0, tMin)).
Proof. apply MaxMin_shift. Qed.
